(** * docker-poc: a shallow embedding of [docker-poc.py]

    The script drives the craft-parts lifecycle (pull, build, stage, prime)
    and satisfies the stage packages from a container image layer: a
    prologue callback builds an image, exports it, unpacks its topmost
    layer into the directory [layer] and hard-links that tree into the
    stage and prime directories.

    The embedding follows the script function by function.  Python
    exceptions are values of [exn]; code that reads or writes the file
    system, the lifecycle manager or the container engine is written in a
    state-and-exception monad over [world].  The lifecycle manager, the
    container engine and the YAML loader are collaborators outside the
    script: they are the fields of the class [Collaborators]. *)

From stdpp Require Import base option list strings gmap.
From Stdlib Require Import ZArith Ascii String.

Local Open Scope string_scope.
Local Open Scope Z_scope.

(** ** Python exceptions *)

Module Py.

(** The exception classes the script can meet.  [JSONDecodeError] derives
    from [ValueError]; [FileNotFoundError], [FileExistsError],
    [NotADirectoryError], [IsADirectoryError] and [shutil.Error] from
    [OSError]; [KeyError] and [IndexError] from [LookupError]; the
    craft-parts errors derive from [PartsError]. *)
Inductive exn_class :=
  | Exception
  | OSError | FileNotFoundError | FileExistsError | ShutilError
  | NotADirectoryError | IsADirectoryError
  | ValueError | JSONDecodeError
  | LookupError | KeyError | IndexError
  | TypeError | AttributeError | RuntimeError
  | TarReadError
  | DockerException
  | PartsError | SchemaValidationError | InvalidPartName.

#[global] Instance exn_class_eq_dec : EqDecision exn_class.
Proof. solve_decision. Defined.

Definition base_class (c : exn_class) : option exn_class :=
  match c with
  | Exception => None
  | FileNotFoundError | FileExistsError | ShutilError
  | NotADirectoryError | IsADirectoryError => Some OSError
  | JSONDecodeError => Some ValueError
  | KeyError | IndexError => Some LookupError
  | SchemaValidationError | InvalidPartName => Some PartsError
  | OSError | ValueError | LookupError | TypeError | AttributeError
  | RuntimeError | TarReadError | DockerException | PartsError => Some Exception
  end.

(** [c] followed by its superclasses, nearest first (the hierarchy is at
    most three deep). *)
Definition mro (c : exn_class) : list exn_class :=
  c :: match base_class c with
       | None => []
       | Some b => b :: match base_class b with
                        | None => []
                        | Some b' => [b']
                        end
       end.

Definition subclass (c d : exn_class) : bool := bool_decide (d ∈ mro c).

(** A raised exception: an instance of a class with its message (for an
    [OSError], its [strerror]), or [SystemExit] with its code.
    [SystemExit] derives from [BaseException] only, so no [except] clause
    of the script catches it. *)
Inductive exn :=
  | Raised (c : exn_class) (msg : string)
  | SystemExit (code : option Z).

Inductive outcome (A : Type) :=
  | Ok (a : A)
  | Raise (e : exn).
Arguments Ok {A} a.
Arguments Raise {A} e.

(** Exceptions alone, for code that touches no state. *)
Definition obind {A B} (o : outcome A) (k : A → outcome B) : outcome B :=
  match o with
  | Ok a => k a
  | Raise e => Raise e
  end.

End Py.
Export Py.

#[global] Instance outcome_ret : MRet outcome := @Ok.
#[global] Instance outcome_bind : MBind outcome := fun A B k o => obind o k.

(** ** File contents, archives and directory trees *)

(** What [json.loads] returns. *)
#[warnings="-register-all"]
Inductive json :=
  | JNull
  | JBool (b : bool)
  | JNum (literal : string)
  | JStr (s : string)
  | JArr (items : list json)
  | JObj (fields : list (string * json)).

(** An entry of a directory or a member of a tar archive: a regular file
    with its contents, or a directory.  Links and devices are outside the
    model. *)
Inductive node (B : Type) :=
  | NFile (content : B)
  | NDir.
Arguments NFile {B} content.
Arguments NDir {B}.

(** The contents of a file, by what the readers of the script make of
    them: a JSON document, a tar archive with its members in archive
    order, or anything else. *)
#[warnings="-register-all"]
Inductive blob :=
  | Raw (bytes : string)
  | JsonText (j : json)
  | TarData (members : list (string * node blob)).

(** A directory tree, flat: each path below the root with its entry. *)
Abbreviation dir := (gmap string (node blob)).

Definition is_file {B} (n : node B) : bool :=
  match n with NFile _ => true | NDir => false end.

(** What a directory that may not exist holds at a path. *)
Definition at_path (d : option dir) (path : string) : option (node blob) :=
  d ≫= (λ tree, tree !! path).

(** ** [json] subscripting, as Python evaluates [x[0]], [x["k"]], [x[-1]] *)

Definition char_str (a : ascii) : string := String a "".

Fixpoint dict_get (k : string) (fields : list (string * json)) : option json :=
  match fields with
  | [] => None
  | (k', v) :: rest =>
      match dict_get k rest with
      | Some v' => Some v'            (* a later binding of the key wins *)
      | None => if decide (k' = k) then Some v else None
      end
  end.

Definition subscript_first (x : json) : outcome json :=
  match x with
  | JArr (y :: _) => Ok y
  | JArr [] => Raise (Raised IndexError "list index out of range")
  | JStr (String a _) => Ok (JStr (char_str a))
  | JStr "" => Raise (Raised IndexError "string index out of range")
  | JObj _ => Raise (Raised KeyError "0")
  | _ => Raise (Raised TypeError "object is not subscriptable")
  end.

Definition subscript_key (x : json) (k : string) : outcome json :=
  match x with
  | JObj fields =>
      match dict_get k fields with
      | Some v => Ok v
      | None => Raise (Raised KeyError k)
      end
  | JArr _ => Raise (Raised TypeError "list indices must be integers or slices, not str")
  | JStr _ => Raise (Raised TypeError "string indices must be integers")
  | _ => Raise (Raised TypeError "object is not subscriptable")
  end.

Definition subscript_last (x : json) : outcome json :=
  match x with
  | JArr items =>
      match last items with
      | Some y => Ok y
      | None => Raise (Raised IndexError "list index out of range")
      end
  | JStr s =>
      match last (list_ascii_of_string s) with
      | Some a => Ok (JStr (char_str a))
      | None => Raise (Raised IndexError "string index out of range")
      end
  | JObj _ => Raise (Raised KeyError "-1")
  | _ => Raise (Raised TypeError "object is not subscriptable")
  end.

(** ** The [tarfile] calls of the script *)

Module Tarfile.

(** [tarfile.open(path)]: the members of the archive stored at [path]. *)
Definition open (file : option blob) : outcome (list (string * node blob)) :=
  match file with
  | None => Raise (Raised FileNotFoundError "No such file or directory")
  | Some (TarData members) => Ok members
  | Some _ => Raise (Raised TarReadError "file could not be opened successfully")
  end.

(** [TarFile.getmember]: the last member of that name. *)
Fixpoint getmember (name : string) (members : list (string * node blob))
  : option (node blob) :=
  match members with
  | [] => None
  | (n, m) :: rest =>
      match getmember name rest with
      | Some m' => Some m'
      | None => if decide (n = name) then Some m else None
      end
  end.

(** [TarFile.extractfile(name)]: [KeyError] when the archive has no such
    member, [None] for a member that carries no data, else a file object
    on the member's contents. *)
Definition extractfile (members : list (string * node blob)) (name : string)
  : outcome (option blob) :=
  match getmember name members with
  | None => Raise (Raised KeyError ("filename '" ++ name ++ "' not found"))
  | Some (NFile b) => Ok (Some b)
  | Some NDir => Ok None
  end.

(** [tarfile.open(fileobj=f)]. *)
Definition open_fileobj (f : option blob) : outcome (list (string * node blob)) :=
  match f with
  | None => Raise (Raised ValueError "nothing to open")
  | Some (TarData members) => Ok members
  | Some _ => Raise (Raised TarReadError "file could not be opened successfully")
  end.

(** The directories above a member name, outermost first: [a] and [a/b]
    for [a/b/c].  Member names are relative paths, their components
    separated by single slashes, as [TarInfo.name] has them. *)
Fixpoint ancestors_from (seen rest : string) : list string :=
  match rest with
  | "" => []
  | String c rest' =>
      if decide (c = "/"%char) then
        (if decide (seen = "") then [] else [seen])
          ++ ancestors_from (seen ++ "/") rest'
      else ancestors_from (seen ++ String c "") rest'
  end.

Definition ancestors (name : string) : list string := ancestors_from "" name.

(** [os.makedirs] on the directories above the target, outermost first:
    a missing directory is created, an existing one is passed, and a file
    in the way raises [NotADirectoryError]. *)
Fixpoint makedirs (tree : dir) (ups : list string) : outcome unit * dir :=
  match ups with
  | [] => (Ok (), tree)
  | p :: rest =>
      match tree !! p with
      | Some (NFile _) => (Raise (Raised NotADirectoryError "Not a directory"), tree)
      | Some NDir => makedirs tree rest
      | None => makedirs (<[p := NDir]> tree) rest
      end
  end.

(** [TarFile.extract(entry, path=dest)], with the default [errorlevel]
    of 1, under which an [OSError] is raised and not logged.  The
    destination and the directories above the target are created when
    they are missing.  A file entry is written over an existing file and
    raises [IsADirectoryError] over a directory; a directory entry is
    created, and left alone where something of that name exists
    ([makedir] ignores the [FileExistsError] of [os.mkdir]).  Failures of
    the medium (no space, no permission) are not part of the model. *)
Definition extract (dest : option dir) (entry : string * node blob)
  : outcome unit * option dir :=
  match makedirs (default ∅ dest) (ancestors entry.1) with
  | (Raise e, tree) => (Raise e, Some tree)
  | (Ok _, tree) =>
      match entry.2 with
      | NFile content =>
          match tree !! entry.1 with
          | Some NDir =>
              (Raise (Raised IsADirectoryError "Is a directory"), Some tree)
          | _ => (Ok (), Some (<[entry.1 := NFile content]> tree))
          end
      | NDir =>
          match tree !! entry.1 with
          | Some _ => (Ok (), Some tree)
          | None => (Ok (), Some (<[entry.1 := NDir]> tree))
          end
      end
  end.

End Tarfile.

(** [json.loads(f.read())]. *)
Definition json_loads (b : blob) : outcome json :=
  match b with
  | JsonText j => Ok j
  | _ => Raise (Raised JSONDecodeError "Expecting value")
  end.

(** ** [extract_stage_layer] *)

(** The layer that [extract_stage_layer] selects and opens: everything up
    to the [for] loop.  It touches no destination. *)
Definition stage_layer_entries (image_file : option blob)
  : outcome (list (string * node blob)) :=
  image ← Tarfile.open image_file;
  manifest_file ← Tarfile.extractfile image "manifest.json";
  match manifest_file with
  | None => Raise (Raised RuntimeError "docker image missing manifest file")
  | Some manifest_bytes =>
      manifest ← json_loads manifest_bytes;
      entry ← subscript_first manifest;
      layers ← subscript_key entry "Layers";
      layer ← subscript_last layers;
      layer_file ← match layer with
        | JStr name => Tarfile.extractfile image name
        | _ => Raise (Raised AttributeError "object has no attribute 'isreg'")
        end;
      Tarfile.open_fileobj layer_file
  end.

(** [for entry in layer_tar: layer_tar.extract(entry, path=stage_dir)]:
    the entries in archive order, up to the first that raises. *)
Fixpoint extract_entries (stage_dir : option dir) (layer_tar : list (string * node blob))
  : outcome unit * option dir :=
  match layer_tar with
  | [] => (Ok (), stage_dir)
  | entry :: rest =>
      match Tarfile.extract stage_dir entry with
      | (Ok _, stage_dir') => extract_entries stage_dir' rest
      | (Raise e, stage_dir') => (Raise e, stage_dir')
      end
  end.

(** [extract_stage_layer(image_file, stage_dir)], as a function of the
    contents of [image_file] and of the state of the directory
    [stage_dir]; it returns the new state of that directory. *)
Definition extract_stage_layer (image_file : option blob) (stage_dir : option dir)
  : outcome unit * option dir :=
  match stage_layer_entries image_file with
  | Raise e => (Raise e, stage_dir)
  | Ok layer_tar => extract_entries stage_dir layer_tar
  end.

(** ** [textwrap.dedent] and [str.join] *)

Module Textwrap.

Definition newline : ascii := "010"%char.
Definition tab : ascii := "009"%char.

(** The class [[ \t]] of the two regular expressions of [dedent]. *)
Definition is_blank (a : ascii) : bool :=
  bool_decide (a = " "%char) || bool_decide (a = tab).

(** The lines of a text, split at every newline:
    [String.concat "\n" (lines s) = s]. *)
Fixpoint lines (s : string) : list string :=
  match s with
  | "" => [""]
  | String a rest =>
      if decide (a = newline) then "" :: lines rest
      else match lines rest with
           | l :: ls => String a l :: ls
           | [] => [String a ""]
           end
  end.

Fixpoint has_newline (s : string) : bool :=
  match s with
  | "" => false
  | String a rest => bool_decide (a = newline) || has_newline rest
  end.

Definition unlines (ls : list string) : string :=
  String.concat (String newline "") ls.

(** The longest prefix of blanks of a line. *)
Fixpoint leading_whitespace (l : string) : string :=
  match l with
  | String a rest => if is_blank a then String a (leading_whitespace rest) else ""
  | "" => ""
  end.

(** [_whitespace_only_re.sub('', text)], line by line: a line of blanks
    only becomes empty. *)
Definition normalize (l : string) : string :=
  if decide (leading_whitespace l = l) then "" else l.

Fixpoint common_prefix (s t : string) : string :=
  match s, t with
  | String a s', String b t' =>
      if decide (a = b) then String a (common_prefix s' t') else ""
  | _, _ => ""
  end.

(** One turn of the loop over [indents]. *)
Definition margin_step (margin : option string) (indent : string) : option string :=
  match margin with
  | None => Some indent
  | Some m =>
      if String.prefix m indent then Some m
      else if String.prefix indent m then Some indent
      else Some (common_prefix m indent)
  end.

(** [_leading_whitespace_re.findall(text)]: the indentation of every line
    that has a character other than a blank. *)
Definition indents (ls : list string) : list string :=
  leading_whitespace <$> filter (λ l, l ≠ "") ls.

Fixpoint drop_string (n : nat) (s : string) : string :=
  match n, s with
  | S n', String _ rest => drop_string n' rest
  | _, _ => s
  end.

(** [re.sub(r'(?m)^' + margin, '', text)], line by line. *)
Definition strip_margin (margin : string) (l : string) : string :=
  if String.prefix margin l then drop_string (String.length margin) l else l.

Definition dedent (text : string) : string :=
  let ls := normalize <$> lines text in
  match foldl margin_step None (indents ls) with
  | Some (String a m) => unlines (strip_margin (String a m) <$> ls)
  | _ => unlines ls
  end.

End Textwrap.

(** [" ".join(names)]. *)
Definition join_spaces (names : list string) : string := String.concat " " names.

(** ** The build description of the stage image *)

(** The f-string of [build_stage_layer] before [dedent]: every line of
    the literal carries the twelve blanks of the source indentation, and
    so does its last, empty line. *)
Definition indent12 : string := "            ".

Definition dockerfile_template (series : string) (stage_packages : list string)
  : string :=
  indent12 ++ "FROM ubuntu:" ++ series ++ String Textwrap.newline "" ++
  indent12 ++ "RUN apt update && apt install " ++ join_spaces stage_packages
           ++ String Textwrap.newline "" ++
  indent12.

(** The build description handed to the engine.  [stage_packages] is the
    package collection in the order in which [list(stage_packages)]
    iterates it; [.encode()] leaves the bytes of the text as they are. *)
Definition stage_dockerfile (series : string) (stage_packages : list string) : string :=
  Textwrap.dedent (dockerfile_template series stage_packages).

(** ** craft-parts data the script reads *)

Inductive Step := PULL | BUILD | STAGE | PRIME.
Inductive ActionType := RUN | RERUN | SKIP | UPDATE.

#[global] Instance Step_eq_dec : EqDecision Step.
Proof. solve_decision. Defined.
#[global] Instance ActionType_eq_dec : EqDecision ActionType.
Proof. solve_decision. Defined.

Record Action := {
  part_name : string;
  step : Step;
  type : ActionType;
  reason : option string;
}.

(** The attributes of [ProjectInfo] the callbacks read, next to the stage
    and prime directories. *)
Record ProjectInfo := {
  series : string;
  image_name : string;
}.

(** The parsed command line.  [parts] is the empty list when no
    subcommand was given, as [vars(options).get("parts", [])] has it. *)
Record Namespace := {
  file : string;
  update : bool;
  plan_only : bool;
  command : option string;
  parts : list string;
}.

(** ** The collaborators *)

(** What the lifecycle manager owns: its own state (in memory and
    persisted) and the two working directories. *)
Record workspace (S : Type) := Workspace {
  lm : S;
  stage_dir : option dir;
  prime_dir : option dir;
}.
Arguments Workspace {S} lm stage_dir prime_dir.
Arguments lm {S} w.
Arguments stage_dir {S} w.
Arguments prime_dir {S} w.

(** What [image.save(named=True)] hands over: a generator, which reads
    the export from the engine while the script iterates over it.  The
    export arrives whole, or the loop over it is left by an exception
    after some chunks ([partial]): the status of the engine's answer is
    checked at the first step of the iteration, not in [save] itself, the
    connection can break later, and so can a write of the script. *)
Inductive export :=
  | Complete (data : blob)
  | Broken (partial : blob) (e : exn).

(** The calls of the script into the lifecycle manager, the container
    engine and the loader of the parts file.  An operation that can fail
    returns an [outcome]; one that changes state returns the new state.
    The calls on the lifecycle manager create, remove and replace files
    below the working directories; executing an action runs the steps of
    a part, which write into the stage and prime directories, whose files
    are hard links to those of the layer directory, so that [ctx_execute]
    is given the layer directory as well and returns its new state. *)
Class Collaborators := {
  lm_state : Type;
  engine_state : Type;
  image : Type;
  parts_data : Type;
  (** [open(options.file)] and [yaml.safe_load(f)] *)
  load_parts_file : string → outcome parts_data;
  (** [craft_parts.LifecycleManager(part_data, ...)] *)
  LifecycleManager :
    parts_data → ProjectInfo → workspace lm_state → outcome unit * workspace lm_state;
  get_stage_packages : lm_state → outcome (list string);
  resolve_package_dependencies : lm_state → list string → outcome (list string);
  (** [lf.get_state_assets("stage-packages", step=Step.PULL)] *)
  get_state_assets : lm_state → outcome (list string);
  lf_clean :
    option Step → list string → workspace lm_state → outcome unit * workspace lm_state;
  lf_reload_state : workspace lm_state → outcome unit * workspace lm_state;
  lf_update : workspace lm_state → outcome unit * workspace lm_state;
  lf_plan : Step → list string → lm_state → outcome (list Action);
  (** what entering the execution context does before the prologue callback *)
  ctx_enter : workspace lm_state → outcome unit * workspace lm_state;
  ctx_execute :
    Action → workspace lm_state * option dir →
    outcome unit * (workspace lm_state * option dir);
  (** [os.path.relpath(project_info.prime_dir)] *)
  prime_relpath : string;
  (** [craft_parts.stage_packages_from_parts(part_list)], in iteration order *)
  stage_packages_from_parts : lm_state → list string;
  (** [docker.from_env().images.build(tag=..., fileobj=BytesIO(dockerfile))] *)
  images_build : string → string → engine_state → outcome image * engine_state;
  (** [image.save(named=True)]: the call raises, or returns the stream
      of the export *)
  image_save : image → engine_state → outcome export * engine_state;
  (** [docker.from_env().images.build(tag=..., path=".")], given the
      [Dockerfile] and the prime directory of the build context *)
  images_build_path :
    string → option string → option dir → engine_state → outcome unit * engine_state;
}.

(** ** The state of a run *)

(** The calls that leave the script, in the order they are made: the
    registration of the two callbacks, the load of the parts file, the
    calls on the lifecycle manager and on its execution context, the
    calls on the engine, and the calls of [extract_stage_layer],
    [shutil.copytree] and [shutil.rmtree].  (The helpers without state,
    [stage_packages_from_parts] and [os.path.relpath], are not on
    record, nor are [print] and the script's own writes to
    [image_data.tar] and [Dockerfile], which are part of the state.) *)
Inductive call :=
  | CallRegisterPrologue
  | CallRegisterEpilogue
  | CallLoadPartsFile (name : string)
  | CallLifecycleManager
  | CallGetStagePackages
  | CallResolvePackageDependencies
  | CallGetStateAssets
  | CallExecutionContext
  | CallClean (s : option Step) (part_names : list string)
  | CallReloadState
  | CallUpdate
  | CallPlan (s : Step) (part_names : list string)
  | CallExecute (a : Action)
  | CallImagesBuild (tag : string) (dockerfile : string)
  | CallImageSave
  | CallExtract
  | CallCopytree (to_prime : bool)
  | CallRmtree
  | CallImagesBuildPath (tag : string).

(** The calls that run an action, and the calls that clear state or
    remove the layer directory. *)
Definition is_execute (c : call) : Prop :=
  match c with CallExecute _ => True | _ => False end.

Definition is_invalidation (c : call) : Prop :=
  match c with
  | CallClean _ _ | CallReloadState | CallRmtree => True
  | _ => False
  end.

Section Script.

Context `{Collaborators}.

Record world := World {
  ws : workspace lm_state;
  engine : engine_state;
  (** the directory [_LAYER_DIR]; [None] when [is_dir()] is false *)
  layer_dir : option dir;
  (** the file [image_data.tar] *)
  image_data_tar : option blob;
  (** the file [Dockerfile] *)
  dockerfile_file : option string;
  (** whether [os.link] from the layer directory into the stage, and into
      the prime directory, is supported (same file system) *)
  stage_linkable : bool;
  prime_linkable : bool;
  stdout : list string;
  stderr : list string;
  calls : list call;
}.

Definition set_ws (x : workspace lm_state) (w : world) : world :=
  World x (engine w) (layer_dir w) (image_data_tar w) (dockerfile_file w)
        (stage_linkable w) (prime_linkable w) (stdout w) (stderr w) (calls w).
Definition set_engine (x : engine_state) (w : world) : world :=
  World (ws w) x (layer_dir w) (image_data_tar w) (dockerfile_file w)
        (stage_linkable w) (prime_linkable w) (stdout w) (stderr w) (calls w).
Definition set_layer_dir (x : option dir) (w : world) : world :=
  World (ws w) (engine w) x (image_data_tar w) (dockerfile_file w)
        (stage_linkable w) (prime_linkable w) (stdout w) (stderr w) (calls w).
Definition set_image_data_tar (x : option blob) (w : world) : world :=
  World (ws w) (engine w) (layer_dir w) x (dockerfile_file w)
        (stage_linkable w) (prime_linkable w) (stdout w) (stderr w) (calls w).
Definition set_dockerfile_file (x : option string) (w : world) : world :=
  World (ws w) (engine w) (layer_dir w) (image_data_tar w) x
        (stage_linkable w) (prime_linkable w) (stdout w) (stderr w) (calls w).
Definition set_stdout (x : list string) (w : world) : world :=
  World (ws w) (engine w) (layer_dir w) (image_data_tar w) (dockerfile_file w)
        (stage_linkable w) (prime_linkable w) x (stderr w) (calls w).
Definition set_stderr (x : list string) (w : world) : world :=
  World (ws w) (engine w) (layer_dir w) (image_data_tar w) (dockerfile_file w)
        (stage_linkable w) (prime_linkable w) (stdout w) x (calls w).
Definition set_calls (x : list call) (w : world) : world :=
  World (ws w) (engine w) (layer_dir w) (image_data_tar w) (dockerfile_file w)
        (stage_linkable w) (prime_linkable w) (stdout w) (stderr w) x.
Definition set_stage_dir (x : option dir) (w : world) : world :=
  set_ws (Workspace (lm (ws w)) x (prime_dir (ws w))) w.
Definition set_prime_dir (x : option dir) (w : world) : world :=
  set_ws (Workspace (lm (ws w)) (stage_dir (ws w)) x) w.

(** ** The monad of the script: state and exceptions *)

Definition M (A : Type) : Type := world → outcome A * world.

Definition ret {A} (a : A) : M A := λ w, (Ok a, w).

Definition bind {A B} (m : M A) (k : A → M B) : M B :=
  λ w, match m w with
       | (Ok a, w') => k a w'
       | (Raise e, w') => (Raise e, w')
       end.

#[global] Instance M_ret : MRet M := @ret.
#[global] Instance M_bind : MBind M := λ A B k m, bind m k.

Definition raise {A} (e : exn) : M A := λ w, (Raise e, w).
Definition get : M world := λ w, (Ok w, w).
Definition modify (f : world → world) : M unit := λ w, (Ok (), f w).

(** Lift a result that needs no state. *)
Definition of_outcome {A} (o : outcome A) : M A := λ w, (o, w).

(** [print(s)] and [print(s, file=sys.stderr)]. *)
Definition print (s : string) : M unit := modify (λ w, set_stdout (stdout w ++ [s]) w).
Definition eprint (s : string) : M unit := modify (λ w, set_stderr (stderr w ++ [s]) w).

Definition record (c : call) : M unit := modify (λ w, set_calls (calls w ++ [c]) w).

(** A call into the lifecycle manager, on its workspace. *)
Definition on_workspace {A} (c : call)
    (op : workspace lm_state → outcome A * workspace lm_state) : M A :=
  λ w, let w := set_calls (calls w ++ [c]) w in
       let '(r, x) := op (ws w) in (r, set_ws x w).

(** A call into the container engine. *)
Definition on_engine {A} (c : call)
    (op : engine_state → outcome A * engine_state) : M A :=
  λ w, let w := set_calls (calls w ++ [c]) w in
       let '(r, x) := op (engine w) in (r, set_engine x w).

(** [sys.exit()]. *)
Definition sys_exit {A} (code : option Z) : M A := raise (SystemExit code).

(** [for x in xs: body(x)]. *)
Fixpoint for_each {A} (xs : list A) (body : A → M unit) : M unit :=
  match xs with
  | [] => ret ()
  | x :: rest => bind (body x) (λ _, for_each rest body)
  end.

(** [with ...: body] around callbacks: [leave] runs on every exit path;
    an exception of the body is raised again after it unless [leave]
    itself raises. *)
Definition finally {A} (body : M A) (leave : M unit) : M A :=
  λ w, match body w with
       | (r, w') =>
           match leave w' with
           | (Ok _, w'') => (r, w'')
           | (Raise e, w'') => (Raise e, w'')
           end
       end.

(** A computation that makes no call of the kind [P]: every such call on
    record after it was on record before. *)
Definition silent (P : call → Prop) {A} (m : M A) : Prop :=
  ∀ w c, P c → c ∈ calls (m w).2 → c ∈ calls w.

(** A read-only call into the lifecycle manager. *)
Definition query {A} (c : call) (f : lm_state → outcome A) : M A :=
  λ w, (f (lm (ws w)), set_calls (calls w ++ [c]) w).

(** [ctx.execute(a)]: the action works on the working directories and,
    through the hard links, on the files of the layer directory. *)
Definition on_execute (a : Action) : M unit :=
  λ w, let w := set_calls (calls w ++ [CallExecute a]) w in
       let '(r, (x, layer)) := ctx_execute a (ws w, layer_dir w) in
       (r, set_layer_dir layer (set_ws x w)).

(** ** [shutil] *)

(** [shutil.copytree(src, dst, copy_function=os.link)] with [linkable]
    telling whether [os.link] from [src] to [dst] is supported.  The
    source is scanned first, then the destination is created, which must
    not exist; directories are created, files are linked; the failures of
    [os.link] are collected and raised together once the walk is over. *)
Definition copytree (src : option dir) (linkable : bool) (dst : option dir)
  : outcome unit * option dir :=
  match src, dst with
  | None, _ => (Raise (Raised FileNotFoundError "No such file or directory"), dst)
  | Some _, Some _ => (Raise (Raised FileExistsError "File exists"), dst)
  | Some tree, None =>
      let made := filter (λ e, linkable || negb (is_file e.2)) tree in
      let errors := filter (λ e, negb linkable && is_file e.2) tree in
      (if decide (size errors = 0%nat) then Ok ()
       else Raise (Raised ShutilError "None"),
       Some made)
  end.

Definition copytree_to_stage : M unit :=
  λ w, let w := set_calls (calls w ++ [CallCopytree false]) w in
       let '(r, d) := copytree (layer_dir w) (stage_linkable w) (stage_dir (ws w)) in
       (r, set_stage_dir d w).

Definition copytree_to_prime : M unit :=
  λ w, let w := set_calls (calls w ++ [CallCopytree true]) w in
       let '(r, d) := copytree (layer_dir w) (prime_linkable w) (prime_dir (ws w)) in
       (r, set_prime_dir d w).

(** [if _LAYER_DIR.is_dir(): shutil.rmtree(_LAYER_DIR)]. *)
Definition remove_layer_dir : M unit :=
  w ← get;
  match layer_dir w with
  | Some _ => record CallRmtree;; modify (set_layer_dir None)
  | None => mret ()
  end.

(** [extract_stage_layer(Path("image_data.tar"), _LAYER_DIR)]. *)
Definition extract_to_layer_dir : M unit :=
  λ w, let w := set_calls (calls w ++ [CallExtract]) w in
       let '(r, d) := extract_stage_layer (image_data_tar w) (layer_dir w) in
       (r, set_layer_dir d w).

(** [with open("image_data.tar", "wb") as f: for chunk in image_data:
    f.write(chunk)]: the file is opened, and so created or emptied,
    before the first chunk is asked for; when the loop is left by an
    exception, what was written up to then stays in the file. *)
Definition write_image_data (image_data : export) : M unit :=
  match image_data with
  | Complete data => modify (set_image_data_tar (Some data))
  | Broken partial e => modify (set_image_data_tar (Some partial));; raise e
  end.

(** ** The callbacks *)

Definition build_stage_layer (project_info : ProjectInfo) : M unit :=
  w ← get;
  match layer_dir w with
  | None =>
      print "Create stage layer";;
      let stage_packages := stage_packages_from_parts (lm (ws w)) in
      let dockerfile := stage_dockerfile (series project_info) stage_packages in
      image ← on_engine (CallImagesBuild "craft-parts-stage" dockerfile)
                        (images_build "craft-parts-stage" dockerfile);
      image_data ← on_engine CallImageSave (image_save image);
      write_image_data image_data;;
      print "Unpack stage layer";;
      extract_to_layer_dir;;
      copytree_to_stage;;
      copytree_to_prime
  | Some _ =>
      print "Using existing stage layer"
  end.

(** The build description of [create_final_image]; [prime_dir] is
    [os.path.relpath(project_info.prime_dir)]. *)
Definition final_dockerfile (series prime_dir : string) : string :=
  Textwrap.dedent
    ("        FROM ubuntu:" ++ series ++ String Textwrap.newline "" ++
     "        COPY " ++ prime_dir ++ " /" ++ String Textwrap.newline "" ++
     "        ").

Definition create_final_image (project_info : ProjectInfo) : M unit :=
  print "Create final docker image";;
  let dockerfile := final_dockerfile (series project_info) prime_relpath in
  modify (set_dockerfile_file (Some dockerfile));;
  w ← get;
  on_engine (CallImagesBuildPath (image_name project_info))
            (images_build_path (image_name project_info)
                               (dockerfile_file w) (prime_dir (ws w))).

(** ** The driver *)

(** A dict literal, and [d[k]]. *)
Fixpoint getitem {K V} `{EqDecision K} (d : list (K * V)) (k : K) : option V :=
  match d with
  | [] => None
  | (k', v) :: rest => if decide (k' = k) then Some v else getitem rest k
  end.

Definition msg : list (Step * list (ActionType * string)) :=
  [ (PULL,  [ (RUN, "Pull"); (RERUN, "Repull"); (SKIP, "Skip pull");
              (UPDATE, "Update sources for") ]);
    (BUILD, [ (RUN, "Build"); (RERUN, "Rebuild"); (SKIP, "Skip build");
              (UPDATE, "Update build for") ]);
    (STAGE, [ (RUN, "Stage"); (RERUN, "Restage"); (SKIP, "Skip stage") ]);
    (PRIME, [ (RUN, "Prime"); (RERUN, "Re-prime"); (SKIP, "Skip prime") ]) ].

(** [msg[a.step][a.type]]. *)
Definition msg_lookup (a : Action) : outcome string :=
  match getitem msg (step a) with
  | None => Raise (Raised KeyError "Step")
  | Some row =>
      match getitem row (type a) with
      | None => Raise (Raised KeyError "ActionType")
      | Some m => Ok m
      end
  end.

(** The truth value of an optional string: [None] and [""] are false. *)
Definition truthy (o : option string) : option string :=
  match o with
  | Some (String a r) => Some (String a r)
  | _ => None
  end.

Definition _action_message (a : Action) : outcome string :=
  match truthy (reason a) with
  | Some r =>
      m ← msg_lookup a;
      mret (m ++ " " ++ part_name a ++ " (" ++ r ++ ")")
  | None =>
      m ← msg_lookup a;
      mret (m ++ " " ++ part_name a)
  end.

Definition step_map : list (string * Step) :=
  [ ("pull", PULL); ("build", BUILD); ("stage", STAGE); ("prime", PRIME) ].

(** [step_map.get(name, Step.PRIME)]. *)
Definition _parse_step (name : string) : Step :=
  default PRIME (getitem step_map name).

(** The plan-only loop of [_do_step]; [printed] is its flag. *)
Fixpoint print_plan (actions : list Action) (printed : bool) : M bool :=
  match actions with
  | [] => mret printed
  | a :: rest =>
      if decide (type a ≠ SKIP) then
        m ← of_outcome (_action_message a);
        print m;;
        print_plan rest true
      else print_plan rest printed
  end.

(** The body of the [for] loop in the execution context. *)
Definition execute_action (a : Action) : M unit :=
  if decide (type a ≠ SKIP) then
    m ← of_outcome (_action_message a);
    print ("Execute: " ++ m);;
    on_execute a
  else mret ().

(** [with lf.execution_context() as ctx: body]: entering runs the
    registered prologue callback, leaving runs the registered epilogue
    callback. *)
Definition execution_context (project_info : ProjectInfo) (body : M unit) : M unit :=
  on_workspace CallExecutionContext ctx_enter;;
  build_stage_layer project_info;;
  finally body (create_final_image project_info).

Definition _do_step (project_info : ProjectInfo) (options : Namespace) : M unit :=
  let target_step :=
    match truthy (command options) with
    | Some c => _parse_step c
    | None => PRIME
    end in
  let part_names := parts options in
  (if update options then on_workspace CallUpdate lf_update else mret ());;
  actions ← query (CallPlan target_step part_names)
                  (lf_plan target_step part_names);
  if plan_only options then
    printed ← print_plan actions false;
    (if negb printed then print "No actions to execute." else mret ());;
    sys_exit None
  else
    execution_context project_info (for_each actions execute_action).

Definition _do_clean (options : Namespace) : M unit :=
  if plan_only options then
    raise (Raised ValueError "Clean operations cannot be planned.")
  else
    (match parts options with
     | [] => print "Clean all parts."
     | _ => mret ()
     end);;
    on_workspace (CallClean None (parts options)) (lf_clean None (parts options));;
    remove_layer_dir.

(** [set(stage_deps) != set(state_stage_deps)]. *)
Definition sets_differ (stage_deps state_stage_deps : list string) : bool :=
  bool_decide (list_to_set stage_deps ≠@{gset string} list_to_set state_stage_deps).

(** The check of [process_parts] on the stage packages. *)
Definition check_stage_packages : M unit :=
  stage_packages ← query CallGetStagePackages get_stage_packages;
  stage_deps ← query CallResolvePackageDependencies
                     (λ s, resolve_package_dependencies s stage_packages);
  state_stage_deps ← query CallGetStateAssets get_state_assets;
  if sets_differ stage_deps state_stage_deps then
    on_workspace (CallClean (Some PULL) []) (lf_clean (Some PULL) []);;
    on_workspace CallReloadState lf_reload_state;;
    remove_layer_dir
  else mret ().

(** The custom arguments given to [LifecycleManager]. *)
Definition project : ProjectInfo := {| series := "20.04"; image_name := "demo-image" |}.

(** [process_parts(options)].  The two callbacks it registers first are
    the ones [execution_context] runs. *)
Definition process_parts (options : Namespace) : M unit :=
  record CallRegisterPrologue;;
  record CallRegisterEpilogue;;
  record (CallLoadPartsFile (file options));;
  part_data ← of_outcome (load_parts_file (file options));
  on_workspace CallLifecycleManager (LifecycleManager part_data project);;
  check_stage_packages;;
  let command := default "prime" (truthy (command options)) in
  if decide (command = "clean") then
    _do_clean options;;
    sys_exit None
  else
    _do_step project options.

(** [main], given the parsed arguments. *)
Definition main (options : Namespace) : M unit :=
  λ w, match process_parts options w with
       | (Raise (Raised c err), w') =>
           if subclass c OSError then
             (eprint ("Error: " ++ err ++ ".");; sys_exit (Some 1)) w'
           else if subclass c SchemaValidationError then
             (eprint "Error: invalid parts specification.";; sys_exit (Some 2)) w'
           else if subclass c InvalidPartName then
             (eprint ("Error: " ++ err);; sys_exit (Some 3)) w'
           else if subclass c ValueError then
             (eprint ("Error: " ++ err);; sys_exit (Some 4)) w'
           else (Raise (Raised c err), w')
       | r => r
       end.

(** The exit status of the interpreter: 0 when [main] returns or
    [sys.exit()] was called without a code, the code of [sys.exit(n)],
    and 1 after an exception nobody caught. *)
Definition exit_status (r : outcome unit) : Z :=
  match r with
  | Ok _ => 0
  | Raise (SystemExit None) => 0
  | Raise (SystemExit (Some n)) => n
  | Raise (Raised _ _) => 1
  end.

Definition run (options : Namespace) (w : world) : Z * world :=
  let '(r, w') := main options w in (exit_status r, w').

End Script.

(** ** A small instance of the collaborators

    A lifecycle manager that keeps the declared stage packages, the
    packages recorded by the last pull and a fixed plan, and an engine
    whose image holds a base layer and one layer on top with the build
    description it was given.  The examples below run the script on it. *)

Module Demo.

Record lm_demo := LmDemo {
  declared : list string;
  recorded : list string;
  planned : list Action;
}.

Definition clean_demo (x : workspace lm_demo) : outcome unit * workspace lm_demo :=
  (Ok (), Workspace (LmDemo (declared (lm x)) [] (planned (lm x))) None None).

Definition execute_demo (a : Action) (x : workspace lm_demo * option dir)
  : outcome unit * (workspace lm_demo * option dir) :=
  match step a with
  | PULL =>
      (Ok (), (Workspace (LmDemo (declared (lm x.1)) (declared (lm x.1)) (planned (lm x.1)))
                         (stage_dir x.1) (prime_dir x.1), x.2))
  | _ => (Ok (), x)
  end.

Definition base_layer : blob :=
  TarData [ ("etc", NDir); ("etc/os-release", NFile (Raw "ubuntu")) ].

Definition top_layer (dockerfile : string) : blob :=
  TarData [ ("usr", NDir); ("usr/installed", NFile (Raw dockerfile)) ].

Definition manifest : blob :=
  JsonText (JArr [ JObj [ ("Config", JStr "config.json");
                          ("RepoTags", JArr [ JStr "craft-parts-stage:latest" ]);
                          ("Layers", JArr [ JStr "base/layer.tar";
                                            JStr "top/layer.tar" ]) ] ]).

Definition exported (dockerfile : string) : blob :=
  TarData [ ("base/layer.tar", NFile base_layer);
            ("top/layer.tar", NFile (top_layer dockerfile));
            ("manifest.json", NFile manifest) ].

#[global] Instance collaborators : Collaborators := {|
  lm_state := lm_demo;
  engine_state := nat;
  image := string;
  parts_data := unit;
  load_parts_file name :=
    if decide (name = "parts.yaml") then Ok ()
    else Raise (Raised FileNotFoundError "No such file or directory");
  LifecycleManager _ _ x := (Ok (), x);
  get_stage_packages s := Ok (declared s);
  resolve_package_dependencies _ pkgs := Ok pkgs;
  get_state_assets s := Ok (recorded s);
  lf_clean _ _ := clean_demo;
  lf_reload_state x := (Ok (), x);
  lf_update x := (Ok (), x);
  lf_plan _ _ s := Ok (planned s);
  ctx_enter x := (Ok (), x);
  ctx_execute := execute_demo;
  prime_relpath := "prime";
  stage_packages_from_parts := declared;
  images_build _ dockerfile n := (Ok dockerfile, S n);
  image_save img n := (Ok (Complete (exported img)), n);
  images_build_path _ _ _ n := (Ok (), S n);
|}.

Definition prime_plan : list Action :=
  [ {| part_name := "app"; step := PULL; type := SKIP; reason := None |};
    {| part_name := "app"; step := BUILD; type := RERUN;
       reason := Some "'source' property changed" |};
    {| part_name := "app"; step := STAGE; type := RUN; reason := None |};
    {| part_name := "app"; step := PRIME; type := RUN; reason := None |} ].


(** A first run: nothing recorded, no layer directory. *)
Definition fresh : world :=
  {| ws := Workspace (LmDemo ["curl"] [] prime_plan) None None;
     engine := 0%nat;
     layer_dir := None;
     image_data_tar := None;
     dockerfile_file := None;
     stage_linkable := true;
     prime_linkable := true;
     stdout := [];
     stderr := [];
     calls := [] |}.

(** The same packages as at the last pull, and the layer directory of an
    earlier run, while the working directories are gone. *)
Definition cached_layer : dir :=
  {[ "usr" := NDir; "usr/installed" := NFile (Raw "curl") ]}.

Definition cached : world :=
  set_layer_dir (Some cached_layer)
    (set_ws (Workspace (LmDemo ["curl"] ["curl"] prime_plan) None None) fresh).

(** A first run whose stage directory lies on another file system. *)
Definition cross_device : world :=
  World (ws fresh) (engine fresh) None None None false true [] [] [].


(** New packages while the layer of an earlier run is there. *)
Definition changed : world :=
  set_ws (Workspace (LmDemo ["curl"; "wget"] ["curl"] prime_plan) None None) cached.

Definition options_of (cmd : option string) (plan : bool) : Namespace :=
  {| file := "parts.yaml"; update := false; plan_only := plan;
     command := cmd; parts := [] |}.

(** A command line that names a parts file that does not exist. *)
Definition missing_file : Namespace :=
  {| file := "nope.yaml"; update := false; plan_only := false;
     command := None; parts := [] |}.

End Demo.

(** ** Invariants of a run *)

Section Invariants.

Context `{Collaborators}.

(** A computation whose final state, however it ends, is related to its
    initial state by [R]. *)
Definition steps (R : world → world → Prop) {A} (m : M A) : Prop :=
  ∀ w, R w (m w).2.

(** The layer directory and the archive are as before, and no call on
    record is lost. *)
Definition cache_kept (w w' : world) : Prop :=
  layer_dir w' = layer_dir w ∧
  image_data_tar w' = image_data_tar w ∧
  ∀ c, c ∈ calls w → c ∈ calls w'.

(** The state in which [process_parts] makes its check on the stage
    packages: the callbacks are registered, the parts file is loaded and
    the lifecycle manager set up, which left the workspace [loaded]. *)
Definition set_up (options : Namespace) (loaded : workspace lm_state) (w : world)
  : world :=
  set_ws loaded
    (set_calls (calls w ++ [CallRegisterPrologue; CallRegisterEpilogue;
                            CallLoadPartsFile (file options);
                            CallLifecycleManager]) w).

(** The calls to [ctx.execute] made since [w] are for actions of
    [actions] that are no skip. *)
Definition executed_from (actions : list Action) (w w' : world) : Prop :=
  ∀ a, CallExecute a ∈ calls w' →
       CallExecute a ∈ calls w ∨ (a ∈ actions ∧ type a ≠ SKIP).

End Invariants.

(** ** Collaborators that fail

    An engine whose state selects what it does: 0 refuses to build, 1
    exports an image whose top layer is empty, 2 exports an archive
    without manifest, 4 breaks the stream of the export after the base
    layer, 5 refuses the export, 6 exports an image whose top layer has
    a file where it needs a directory; anything else behaves as the demo
    engine.  The lifecycle manager is the one of the demo, except that
    cleaning a part other than [app] raises [InvalidPartName]. *)

Module Faulty.

Definition empty_layer : blob := TarData [].

Definition exported_empty : blob :=
  TarData [ ("base/layer.tar", NFile Demo.base_layer);
            ("top/layer.tar", NFile empty_layer);
            ("manifest.json", NFile Demo.manifest) ].

Definition exported_no_manifest (dockerfile : string) : blob :=
  TarData [ ("base/layer.tar", NFile Demo.base_layer);
            ("top/layer.tar", NFile (Demo.top_layer dockerfile)) ].

Definition build (dockerfile : string) (mode : nat) : outcome string * nat :=
  match mode with
  | O => (Raise (Raised DockerException "Cannot connect to the Docker daemon"), mode)
  | _ => (Ok dockerfile, mode)
  end.

Definition exported_partly : blob :=
  TarData [ ("base/layer.tar", NFile Demo.base_layer) ].

Definition exported_conflict (dockerfile : string) : blob :=
  TarData [ ("base/layer.tar", NFile Demo.base_layer);
            ("top/layer.tar",
             NFile (TarData [ ("usr", NFile (Raw ""));
                              ("usr/installed", NFile (Raw dockerfile)) ]));
            ("manifest.json", NFile Demo.manifest) ].

Definition save (img : string) (mode : nat) : outcome export * nat :=
  match mode with
  | 1%nat => (Ok (Complete exported_empty), mode)
  | 2%nat => (Ok (Complete (exported_no_manifest img)), mode)
  | 6%nat => (Ok (Complete (exported_conflict img)), mode)
  | 4%nat => (Ok (Broken exported_partly
                         (Raised DockerException "500 Server Error")), mode)
  | 5%nat => (Raise (Raised DockerException "Connection aborted"), mode)
  | _ => (Ok (Complete (Demo.exported img)), mode)
  end.

Definition clean (part_names : list string) (x : workspace Demo.lm_demo)
  : outcome unit * workspace Demo.lm_demo :=
  if decide (Forall (λ n, n = "app") part_names) then Demo.clean_demo x
  else (Raise (Raised InvalidPartName "A part named 'lib' is not defined"), x).

Definition collaborators : Collaborators := {|
  lm_state := Demo.lm_demo;
  engine_state := nat;
  image := string;
  parts_data := unit;
  load_parts_file name :=
    if decide (name = "parts.yaml") then Ok ()
    else Raise (Raised FileNotFoundError "No such file or directory");
  LifecycleManager _ _ x := (Ok (), x);
  get_stage_packages s := Ok (Demo.declared s);
  resolve_package_dependencies _ pkgs := Ok pkgs;
  get_state_assets s := Ok (Demo.recorded s);
  lf_clean _ part_names := clean part_names;
  lf_reload_state x := (Ok (), x);
  lf_update x := (Ok (), x);
  lf_plan _ _ s := Ok (Demo.planned s);
  ctx_enter x := (Ok (), x);
  ctx_execute := Demo.execute_demo;
  prime_relpath := "prime";
  stage_packages_from_parts := Demo.declared;
  images_build _ := build;
  image_save := save;
  images_build_path _ _ _ n := (Ok (), n);
|}.

(** A first run against an engine in the given mode. *)
Definition first_run (mode : nat) : @world collaborators :=
  @World collaborators
    (Workspace (Demo.LmDemo ["curl"] [] Demo.prime_plan) None None)
    mode None None None true true [] [] [].

(** A first run that finds a stage directory already there. *)
Definition stage_exists : @world collaborators :=
  set_stage_dir (H := collaborators) (Some ∅) (first_run 3).

(** A later run: the packages of the last pull, the layer of the demo. *)
Definition later_run : @world collaborators :=
  @World collaborators
    (Workspace (Demo.LmDemo ["curl"] ["curl"] Demo.prime_plan) None None)
    3%nat (Some Demo.cached_layer) None None true true [] [] [].

Definition clean_options (part_names : list string) : Namespace :=
  {| file := "parts.yaml"; update := false; plan_only := false;
     command := Some "clean"; parts := part_names |}.

End Faulty.

(** * Properties *)

(** ** The layer extractor *)

Section Extraction.

Implicit Types (members entries : list (string * node blob)) (dest : option dir).
Implicit Types (tree : dir) (entry : string * node blob).















(** The top layer of the demo archive has no such conflict. *)
Lemma demo_layer_without_conflict dockerfile n content :
  (n, NFile content) ∈ [ ("usr", NDir); ("usr/installed", NFile (Raw dockerfile)) ] →
  ((n, NDir) ∉ [ ("usr", NDir); ("usr/installed", NFile (Raw dockerfile)) ]) ∧
  (∀ n' m',
     (n', m') ∈ [ ("usr", NDir); ("usr/installed", NFile (Raw dockerfile)) ] →
     n ∉ Tarfile.ancestors n').
Proof.
  intros Hin.
  apply elem_of_cons in Hin as [[=]|Hin].
  apply elem_of_cons in Hin as [[= -> ->]|Hin]; [|by apply elem_of_nil in Hin].
  split.
  - intros Hdir.
    apply elem_of_cons in Hdir as [[=]|Hdir].
    apply elem_of_cons in Hdir as [[=]|Hdir]. by apply elem_of_nil in Hdir.
  - intros n' m' Hin Habove.
    apply elem_of_cons in Hin as [[= -> ->]|Hin].
    { by apply elem_of_nil in Habove. }
    apply elem_of_cons in Hin as [[= -> ->]|Hin]; [|by apply elem_of_nil in Hin].
    apply elem_of_cons in Habove as [[=]|Habove]. by apply elem_of_nil in Habove.
Qed.

(** What the demo archive leaves in a destination that did not exist:
    the directory and the file of the top layer. *)
Lemma extract_stage_layer_demo_unpacked :
  extract_stage_layer (Some (Demo.exported "FROM scratch")) None
    = (Ok (), Some {[ "usr" := NDir; "usr/installed" := NFile (Raw "FROM scratch") ]}).
Proof. vm_compute. reflexivity. Qed.

(** A layer need not list the directories above its files: they are
    created on the way. *)
Lemma extract_entries_creates_parents :
  extract_entries None [ ("usr/bin/curl", NFile (Raw "elf")) ]
    = (Ok (), Some {[ "usr" := NDir; "usr/bin" := NDir;
                      "usr/bin/curl" := NFile (Raw "elf") ]}).
Proof. vm_compute. reflexivity. Qed.

(** A layer that has a file where a later entry needs a directory stops
    part-way with an [OSError]: the first entry is in the destination,
    the second is not. *)
Lemma extract_entries_stops_at_conflict :
  extract_entries None [ ("a", NFile (Raw "x")); ("a/b", NFile (Raw "y")) ]
    = (Raise (Raised NotADirectoryError "Not a directory"),
       Some {[ "a" := NFile (Raw "x") ]}) ∧
  subclass NotADirectoryError OSError = true.
Proof. split; vm_compute; reflexivity. Qed.

(** Without a member [manifest.json], [TarFile.extractfile] raises
    [KeyError]: the test [if not manifest_file] is never reached. *)
Lemma extract_stage_layer_no_manifest members dest :
  Tarfile.getmember "manifest.json" members = None →
  extract_stage_layer (Some (TarData members)) dest =
    (Raise (Raised KeyError "filename 'manifest.json' not found"), dest).
Proof.
  intros Hnone. unfold extract_stage_layer, stage_layer_entries, Tarfile.extractfile.
  simpl. by rewrite Hnone.
Qed.

(** The [RuntimeError] of the script is raised for a member
    [manifest.json] that carries no data, such as a directory. *)
Lemma extract_stage_layer_manifest_directory members dest :
  Tarfile.getmember "manifest.json" members = Some NDir →
  extract_stage_layer (Some (TarData members)) dest =
    (Raise (Raised RuntimeError "docker image missing manifest file"), dest).
Proof.
  intros Hdir. unfold extract_stage_layer, stage_layer_entries, Tarfile.extractfile.
  simpl. by rewrite Hdir.
Qed.

(** C4. An archive with one layer and no [manifest.json]: the call fails
    with [KeyError], which is not the [RuntimeError] with the message
    "docker image missing manifest file"; the destination is untouched. *)
Theorem extract_stage_layer_missing_manifest_raises_KeyError :
  let archive := TarData [ ("top/layer.tar", NFile (Demo.top_layer "FROM scratch")) ] in
  Tarfile.getmember "manifest.json" [ ("top/layer.tar", NFile (Demo.top_layer "FROM scratch")) ]
    = None ∧
  extract_stage_layer (Some archive) None =
    (Raise (Raised KeyError "filename 'manifest.json' not found"), None) ∧
  extract_stage_layer (Some archive) None ≠
    (Raise (Raised RuntimeError "docker image missing manifest file"), None).
Proof. split_and!; [reflexivity|reflexivity|discriminate]. Qed.

End Extraction.

(** ** The build description *)

Section Description.

Import Textwrap.

Lemma has_newline_app s t :
  has_newline (s ++ t) = has_newline s || has_newline t.
Proof. induction s as [|a s IH]; simpl; [done|]. by rewrite IH, orb_assoc. Qed.

Lemma has_newline_join names :
  Forall (λ n, has_newline n = false) names → has_newline (join_spaces names) = false.
Proof.
  unfold join_spaces. induction 1 as [|n rest Hn Hrest IH]; [done|].
  destruct rest as [|n' rest]; [done|].
  change (has_newline (n ++ " " ++ String.concat " " (n' :: rest)) = false).
  by rewrite !has_newline_app, Hn, IH.
Qed.

Lemma lines_single s : has_newline s = false → lines s = [s].
Proof.
  induction s as [|a s IH]; simpl; [done|].
  intros [Ha Hs]%orb_false_elim. apply bool_decide_eq_false in Ha.
  case_decide; [done|]. by rewrite IH.
Qed.

Lemma lines_app_newline s t :
  has_newline s = false → lines (s ++ String newline t) = s :: lines t.
Proof.
  induction s as [|a s IH]; simpl.
  - intros _. by try case_decide.
  - intros [Ha Hs]%orb_false_elim. apply bool_decide_eq_false in Ha.
    case_decide; [done|]. by rewrite IH.
Qed.

Lemma lines_app_line s t :
  has_newline s = false → lines (s ++ String newline "" ++ t) = s :: lines t.
Proof. exact (lines_app_newline s t). Qed.

Lemma app_assoc_string (s t u : string) : (s ++ t) ++ u = s ++ t ++ u.
Proof.
  induction s as [|a s IH]; [done|].
  change (String a ((s ++ t) ++ u) = String a (s ++ t ++ u)). by f_equal.
Qed.

Lemma lines_dockerfile_template series stage_packages :
  has_newline series = false →
  Forall (λ n, has_newline n = false) stage_packages →
  lines (dockerfile_template series stage_packages) =
    [ indent12 ++ "FROM ubuntu:" ++ series;
      indent12 ++ "RUN apt update && apt install " ++ join_spaces stage_packages;
      indent12 ].
Proof.
  intros Hseries Hnames. unfold dockerfile_template.
  rewrite <- (app_assoc_string "FROM ubuntu:" series),
          <- (app_assoc_string indent12 ("FROM ubuntu:" ++ series)).
  rewrite lines_app_line
    by (rewrite !has_newline_app, Hseries; reflexivity).
  rewrite <- (app_assoc_string "RUN apt update && apt install "
                (join_spaces stage_packages)),
          <- (app_assoc_string indent12
                ("RUN apt update && apt install " ++ join_spaces stage_packages)).
  rewrite lines_app_line
    by (rewrite !has_newline_app, has_newline_join by done; reflexivity).
  by rewrite lines_single.
Qed.

(** C8, as the code has it.  The build description is the base-image
    directive and one installation directive that lists the package names
    in the order in which the collection is iterated: runs that iterate
    the same names in the same order render the same description.  (The
    series and the names hold no line break.) *)
Theorem stage_dockerfile_lists_in_iteration_order series stage_packages :
  has_newline series = false →
  Forall (λ n, has_newline n = false) stage_packages →
  stage_dockerfile series stage_packages =
    "FROM ubuntu:" ++ series ++ String newline
      ("RUN apt update && apt install " ++ join_spaces stage_packages
         ++ String newline "").
Proof.
  intros Hseries Hnames. unfold stage_dockerfile, dedent.
  rewrite lines_dockerfile_template by done.
  vm_compute. reflexivity.
Qed.

Lemma stage_dockerfile_lists_in_iteration_order_demo :
  stage_dockerfile "20.04" ["curl"; "wget"] =
    "FROM ubuntu:" ++ "20.04" ++ String newline
      ("RUN apt update && apt install " ++ join_spaces ["curl"; "wget"]
         ++ String newline "").
Proof.
  apply (stage_dockerfile_lists_in_iteration_order "20.04" ["curl"; "wget"]).
  - reflexivity.
  - repeat constructor.
Defined.

(** C8, as stated, fails: the same set of packages iterated in two orders
    gives two build descriptions. *)
Lemma stage_dockerfile_depends_on_order :
  list_to_set ["curl"; "wget"] =@{gset string} list_to_set ["wget"; "curl"] ∧
  stage_dockerfile "20.04" ["curl"; "wget"] ≠ stage_dockerfile "20.04" ["wget"; "curl"].
Proof. split; [by vm_compute|]. vm_compute. discriminate. Qed.

End Description.

(** ** The action messages *)

(** C10. [_action_message] has no message for the UPDATE of the stage or
    of the prime step and raises [KeyError] there; for every other step
    and action type it returns the message of the table followed by the
    part name, and by the reason in parentheses when the action has one
    (an empty reason counts as none, as [if a.reason] has it). *)
Theorem _action_message_partial (a : Action) :
  ((step a = STAGE ∨ step a = PRIME) ∧ type a = UPDATE →
     ∃ k, _action_message a = Raise (Raised KeyError k)) ∧
  (¬ ((step a = STAGE ∨ step a = PRIME) ∧ type a = UPDATE) →
     ∃ m, msg_lookup a = Ok m ∧
          _action_message a =
            Ok (match reason a with
                | None | Some "" => m ++ " " ++ part_name a
                | Some r => m ++ " " ++ part_name a ++ " (" ++ r ++ ")"
                end)).
Proof.
  destruct a as [name s t r]; simpl. split.
  - intros [[-> | ->] ->]; exists "ActionType";
      unfold _action_message; simpl; by destruct (truthy r).
  - intros Hdefined.
    destruct s, t; try (exfalso; apply Hdefined; by eauto);
      (eexists; split; [reflexivity|]);
      unfold _action_message; simpl; by destruct r as [[|]|].
Qed.

Lemma _action_message_partial_demo :
  (∃ k, _action_message
          {| part_name := "app"; step := STAGE; type := UPDATE; reason := None |}
        = Raise (Raised KeyError k)) ∧
  (∃ m, msg_lookup
          {| part_name := "app"; step := BUILD; type := RERUN;
             reason := Some "'source' property changed" |} = Ok m ∧
        _action_message
          {| part_name := "app"; step := BUILD; type := RERUN;
             reason := Some "'source' property changed" |}
        = Ok (m ++ " app ('source' property changed)")).
Proof.
  split.
  - apply (proj1 (_action_message_partial
                    {| part_name := "app"; step := STAGE; type := UPDATE;
                       reason := None |})).
    split; [by left|reflexivity].
  - apply (proj2 (_action_message_partial
                    {| part_name := "app"; step := BUILD; type := RERUN;
                       reason := Some "'source' property changed" |})).
    simpl. intros [[? | ?] ?]; discriminate.
Defined.

(** ** The stage materializer *)

Section Materializer.

Context `{Collaborators}.

(** A [copytree] that succeeds had a source, no destination, and made the
    destination a copy of the source. *)
Lemma copytree_ok src linkable dst dst' :
  copytree src linkable dst = (Ok (), dst') →
  ∃ tree, src = Some tree ∧ dst = None ∧ dst' = Some tree.
Proof.
  destruct src as [tree|], dst as [old|]; simpl; try discriminate.
  case_decide as Herrors; [|discriminate].
  intros [= <-]. exists tree. split_and!; [done|done|f_equal].
  apply map_size_empty_inv in Herrors.
  apply map_filter_id. intros path n Hn.
  destruct linkable; [done|]. simpl.
  destruct (is_file n) eqn:Hfile; [|done].
  exfalso. apply (map_filter_empty_not_lookup _ _ path n Herrors); [|done].
  simpl. by rewrite Hfile.
Qed.

(** With the layer directory present the callback prints one line and
    does nothing else. *)
Lemma build_stage_layer_hit project_info w d :
  layer_dir w = Some d →
  build_stage_layer project_info w =
    (Ok (), set_stdout (stdout w ++ ["Using existing stage layer"]) w).
Proof.
  intros Hd. unfold build_stage_layer, mbind, M_bind, bind, get.
  by rewrite Hd.
Qed.

(** Without it, a callback that returns has built, exported and unpacked
    the layer and copied it twice. *)
Lemma build_stage_layer_miss_ok project_info w w' :
  layer_dir w = None →
  build_stage_layer project_info w = (Ok (), w') →
  ∃ d, layer_dir w' = Some d ∧
       stage_dir (ws w') = Some d ∧ prime_dir (ws w') = Some d.
Proof.
  intros Hd. unfold build_stage_layer, mbind, M_bind, bind, get. rewrite Hd.
  unfold print, modify, on_engine, extract_to_layer_dir,
    copytree_to_stage, copytree_to_prime.
  cbn.
  destruct (images_build _ _ _) as [[img|e] g]; [|discriminate].
  destruct (image_save _ _) as [[[data|partial e]|e] g']; [|discriminate..].
  cbn.
  destruct (extract_stage_layer _ _) as [[[]|e] layer]; [|discriminate].
  cbn.
  destruct (copytree layer _ _) as [[[]|e] stage] eqn:Hstage; [|discriminate].
  cbn.
  destruct (copytree layer _ _) as [[[]|e] prime] eqn:Hprime in |- *;
    [|discriminate].
  intros [= <-].
  apply copytree_ok in Hstage as (tree & -> & _ & ->).
  apply copytree_ok in Hprime as (tree' & [= <-] & _ & ->).
  by exists tree.
Qed.

(** C1, as the code has it.  On a cache miss, a callback that returns
    leaves the stage and the prime directory each a copy of the cached
    layer; on a cache hit it prints its message and leaves the stage and
    the prime directory, like everything else, as they were. *)
Theorem build_stage_layer_populates_on_miss_only project_info w :
  (layer_dir w = None →
   ∀ w', build_stage_layer project_info w = (Ok (), w') →
     ∃ d, layer_dir w' = Some d ∧
          stage_dir (ws w') = Some d ∧ prime_dir (ws w') = Some d) ∧
  (is_Some (layer_dir w) →
   ∃ w', build_stage_layer project_info w = (Ok (), w') ∧
         stage_dir (ws w') = stage_dir (ws w) ∧
         prime_dir (ws w') = prime_dir (ws w) ∧
         layer_dir w' = layer_dir w).
Proof.
  split.
  - intros Hmiss w'. by apply build_stage_layer_miss_ok.
  - intros [d Hd]. eexists. split; [by apply (build_stage_layer_hit _ _ d)|done].
Qed.

(** A callback that returns leaves the layer directory present. *)
Lemma build_stage_layer_ok_present project_info w w1 :
  build_stage_layer project_info w = (Ok (), w1) → is_Some (layer_dir w1).
Proof.
  intros Hfirst. destruct (layer_dir w) as [d|] eqn:Hw.
  - rewrite (build_stage_layer_hit _ _ d Hw) in Hfirst.
    injection Hfirst as <-. by exists d.
  - destruct (build_stage_layer_miss_ok _ _ _ Hw Hfirst) as (d & ? & _).
    by exists d.
Qed.

(** C5. With the layer directory present the callback makes no call at
    all (no build, no export, no extraction) and leaves the engine, the
    exported archive and the layer directory as they are.  From any
    state, the layer directory after two invocations in a row (the second
    does not run when the first raises) is the layer directory after one;
    and after an invocation that returns, the next one makes no call and
    changes neither the layer directory nor the working directories. *)
Theorem build_stage_layer_idempotent project_info w :
  (is_Some (layer_dir w) →
   ∃ w', build_stage_layer project_info w = (Ok (), w') ∧
         calls w' = calls w ∧
         engine w' = engine w ∧
         image_data_tar w' = image_data_tar w ∧
         layer_dir w' = layer_dir w) ∧
  layer_dir ((build_stage_layer project_info;; build_stage_layer project_info) w).2
    = layer_dir (build_stage_layer project_info w).2 ∧
  (∀ w1, build_stage_layer project_info w = (Ok (), w1) →
     ∃ w2, build_stage_layer project_info w1 = (Ok (), w2) ∧
           calls w2 = calls w1 ∧
           layer_dir w2 = layer_dir w1 ∧
           ws w2 = ws w1).
Proof.
  split_and!.
  - intros [d Hd]. eexists. split; [by apply (build_stage_layer_hit _ _ d)|done].
  - unfold mbind, M_bind, bind.
    destruct (build_stage_layer project_info w) as [[[]|e] w1] eqn:Hfirst; [|done].
    destruct (build_stage_layer_ok_present _ _ _ Hfirst) as [d Hd].
    by rewrite (build_stage_layer_hit _ _ d Hd).
  - intros w1 Hfirst.
    destruct (build_stage_layer_ok_present _ _ _ Hfirst) as [d Hd].
    eexists. split; [by apply (build_stage_layer_hit _ _ d)|done].
Qed.

(** [copytree] is given [os.link] as its copy function and nothing else:
    where linking is supported the destination becomes a copy of the
    source; where it is not and the source holds a file, [copytree]
    raises [shutil.Error] after creating the directories only. *)
Lemma copytree_without_fallback (tree : dir) :
  copytree (Some tree) true None = (Ok (), Some tree) ∧
  (∀ path content, tree !! path = Some (NFile content) →
     ∃ made,
       copytree (Some tree) false None = (Raise (Raised ShutilError "None"), Some made) ∧
       (∀ p n, made !! p = Some n ↔ tree !! p = Some n ∧ n = NDir)).
Proof.
  split.
  - destruct (copytree (Some tree) true None) as [[[]|e] d] eqn:Hcopy.
    + by apply copytree_ok in Hcopy as (? & [= <-] & _ & ->).
    + simpl in Hcopy. case_decide as Herrors; [done|].
      destruct Herrors. apply map_size_empty_iff, map_empty. intros p.
      apply map_lookup_filter_None. right. intros n _. simpl. tauto.
  - intros path content Hfile. eexists. simpl. split.
    + case_decide as Herrors; [|done].
      apply map_size_empty_inv in Herrors.
      by destruct (map_filter_empty_not_lookup _ _ path (NFile content) Herrors).
    + intros p n. rewrite map_lookup_filter_Some. simpl.
      destruct n; simpl; split; intros [? ?]; done.
Qed.

(** The callback on a cache miss, up to the two copies: the build
    description is built, the image exported and written to
    [image_data.tar], and the top layer unpacked into the layer
    directory. *)
Lemma build_stage_layer_unpacked project_info w img g data g' r layer :
  layer_dir w = None →
  images_build "craft-parts-stage"
    (stage_dockerfile (series project_info)
       (stage_packages_from_parts (lm (ws w)))) (engine w) = (Ok img, g) →
  image_save img g = (Ok (Complete data), g') →
  extract_stage_layer (Some data) None = (r, layer) →
  ∃ w1,
    build_stage_layer project_info w
      = (of_outcome r;; copytree_to_stage;; copytree_to_prime) w1 ∧
    layer_dir w1 = layer ∧
    image_data_tar w1 = Some data ∧
    ws w1 = ws w ∧
    stage_linkable w1 = stage_linkable w ∧
    prime_linkable w1 = prime_linkable w.
Proof.
  intros Hmiss Hbuild Hsave Hunpack.
  unfold build_stage_layer, mbind, M_bind, bind, get. rewrite Hmiss.
  unfold print, modify, on_engine, write_image_data, extract_to_layer_dir, of_outcome.
  cbn -[extract_stage_layer]. rewrite Hbuild. cbn -[extract_stage_layer].
  rewrite Hsave. cbn -[extract_stage_layer]. rewrite Hmiss, Hunpack.
  eexists. split; [destruct r as [[]|e]; reflexivity|]. cbn.
  by split_and!.
Qed.

(** C9, as the code has it.  The callback copies the unpacked layer with
    [shutil.copytree] and [os.link] as the copy function, first into the
    stage and then into the prime directory, and has no fallback.  On a
    cache miss whose build, export and extraction succeed and that finds
    neither working directory: where linking is supported for both, the
    callback returns and each directory is a copy of the layer; where it
    is not supported for the stage directory and the layer holds a file,
    the callback raises [shutil.Error], an [OSError], the stage directory
    holds the directories of the layer and none of its files, and the
    prime directory is not created; where it is supported for the stage
    directory only, the callback raises the same error after filling the
    stage directory, and the prime directory holds directories only. *)
Theorem build_stage_layer_links_without_fallback
    project_info w img g data g' (tree : dir) :
  layer_dir w = None →
  stage_dir (ws w) = None →
  prime_dir (ws w) = None →
  images_build "craft-parts-stage"
    (stage_dockerfile (series project_info)
       (stage_packages_from_parts (lm (ws w)))) (engine w) = (Ok img, g) →
  image_save img g = (Ok (Complete data), g') →
  extract_stage_layer (Some data) None = (Ok (), Some tree) →
  (stage_linkable w = true → prime_linkable w = true →
     ∃ w', build_stage_layer project_info w = (Ok (), w') ∧
           layer_dir w' = Some tree ∧
           stage_dir (ws w') = Some tree ∧
           prime_dir (ws w') = Some tree) ∧
  (∀ path content,
     tree !! path = Some (NFile content) →
     (stage_linkable w = false →
        ∃ w' made,
          build_stage_layer project_info w = (Raise (Raised ShutilError "None"), w') ∧
          subclass ShutilError OSError = true ∧
          layer_dir w' = Some tree ∧
          stage_dir (ws w') = Some made ∧
          (∀ p n, made !! p = Some n ↔ tree !! p = Some n ∧ n = NDir) ∧
          prime_dir (ws w') = None) ∧
     (stage_linkable w = true → prime_linkable w = false →
        ∃ w' made,
          build_stage_layer project_info w = (Raise (Raised ShutilError "None"), w') ∧
          subclass ShutilError OSError = true ∧
          layer_dir w' = Some tree ∧
          stage_dir (ws w') = Some tree ∧
          prime_dir (ws w') = Some made ∧
          (∀ p n, made !! p = Some n ↔ tree !! p = Some n ∧ n = NDir))).
Proof.
  intros Hmiss Hstage Hprime Hbuild Hsave Hunpack.
  destruct (build_stage_layer_unpacked _ _ _ _ _ _ _ _ Hmiss Hbuild Hsave Hunpack)
    as (w1 & -> & Hlayer & _ & Hws & Hslink & Hplink).
  destruct (copytree_without_fallback tree) as [Hlinked Hrefused].
  unfold mbind, M_bind, bind, of_outcome, copytree_to_stage, copytree_to_prime.
  cbn. rewrite Hlayer, Hws, Hstage, Hslink. split.
  - intros -> Hp. rewrite Hlinked. cbn.
    rewrite Hlayer, Hws, Hprime, Hplink, Hp, Hlinked.
    eexists. split; [reflexivity|]. by cbn.
  - intros path content Hfile.
    destruct (Hrefused path content Hfile) as (made & Hcopy & Hmade). split.
    + intros ->. rewrite Hcopy. exists (set_stage_dir (Some made)
        (set_calls (calls w1 ++ [CallCopytree false]) w1)), made.
      split; [reflexivity|]. cbn. by rewrite Hws, Hprime.
    + intros -> Hp. rewrite Hlinked. cbn.
      rewrite Hlayer, Hws, Hprime, Hplink, Hp, Hcopy.
      eexists _, made. split; [reflexivity|]. by cbn.
Qed.

End Materializer.

(** The callback on the demo collaborators: a first run builds the layer
    and fills both directories; a run that finds the layer leaves them
    alone. *)
Lemma build_stage_layer_populates_on_miss_only_demo :
  (∃ d, layer_dir (build_stage_layer project Demo.fresh).2 = Some d ∧
        stage_dir (ws (build_stage_layer project Demo.fresh).2) = Some d ∧
        prime_dir (ws (build_stage_layer project Demo.fresh).2) = Some d) ∧
  (∃ w', build_stage_layer project Demo.cached = (Ok (), w') ∧
         stage_dir (ws w') = stage_dir (ws Demo.cached) ∧
         prime_dir (ws w') = prime_dir (ws Demo.cached) ∧
         layer_dir w' = layer_dir Demo.cached).
Proof.
  split.
  - apply (proj1 (build_stage_layer_populates_on_miss_only project Demo.fresh)).
    + reflexivity.
    + vm_compute. reflexivity.
  - apply (proj2 (build_stage_layer_populates_on_miss_only project Demo.cached)).
    eexists. reflexivity.
Defined.

(** C1, as stated, fails on a cache hit: the layer directory is there,
    the stage and the prime directory are not, and after the callback
    they still are not. *)
Lemma build_stage_layer_hit_leaves_directories_absent :
  at_path (layer_dir Demo.cached) "usr/installed" = Some (NFile (Raw "curl")) ∧
  (build_stage_layer project Demo.cached).1 = Ok () ∧
  stdout (build_stage_layer project Demo.cached).2 = ["Using existing stage layer"] ∧
  stage_dir (ws (build_stage_layer project Demo.cached).2) = None ∧
  prime_dir (ws (build_stage_layer project Demo.cached).2) = None.
Proof. split_and!; by vm_compute. Qed.

Lemma build_stage_layer_idempotent_demo :
  ∃ w', build_stage_layer project Demo.cached = (Ok (), w') ∧
        calls w' = calls Demo.cached ∧
        engine w' = engine Demo.cached ∧
        image_data_tar w' = image_data_tar Demo.cached ∧
        layer_dir w' = layer_dir Demo.cached.
Proof.
  apply (proj1 (build_stage_layer_idempotent project Demo.cached)).
  eexists. reflexivity.
Defined.

Lemma build_stage_layer_links_without_fallback_demo :
  (∃ w', build_stage_layer project Demo.fresh = (Ok (), w') ∧
         layer_dir w' = Some (<[ "usr/installed" :=
                                   NFile (Raw (stage_dockerfile "20.04" ["curl"])) ]>
                                Demo.cached_layer) ∧
         stage_dir (ws w') = layer_dir w' ∧
         prime_dir (ws w') = layer_dir w') ∧
  (∃ w' made,
     build_stage_layer project Demo.cross_device = (Raise (Raised ShutilError "None"), w') ∧
     subclass ShutilError OSError = true ∧
     stage_dir (ws w') = Some made ∧
     (∀ p n, made !! p = Some n ↔
             <[ "usr/installed" := NFile (Raw (stage_dockerfile "20.04" ["curl"])) ]>
               Demo.cached_layer !! p = Some n ∧ n = NDir) ∧
     prime_dir (ws w') = None).
Proof.
  assert (extract_stage_layer
            (Some (Demo.exported (stage_dockerfile "20.04" ["curl"]))) None
          = (Ok (), Some (<[ "usr/installed" :=
                               NFile (Raw (stage_dockerfile "20.04" ["curl"])) ]>
                            Demo.cached_layer)))
    as Hunpack by (vm_compute; reflexivity).
  assert (images_build "craft-parts-stage"
            (stage_dockerfile (series project)
               (stage_packages_from_parts (lm (ws Demo.fresh)))) 0%nat
          = (Ok (stage_dockerfile "20.04" ["curl"]), 1%nat))
    as Hbuild by (vm_compute; reflexivity).
  assert (image_save (stage_dockerfile "20.04" ["curl"]) 1%nat
          = (Ok (Complete (Demo.exported (stage_dockerfile "20.04" ["curl"]))), 1%nat))
    as Hsave by (vm_compute; reflexivity).
  assert ((<[ "usr/installed" := NFile (Raw (stage_dockerfile "20.04" ["curl"])) ]>
             Demo.cached_layer : dir) !! "usr/installed"
          = Some (NFile (Raw (stage_dockerfile "20.04" ["curl"]))))
    as Hfile by apply lookup_insert_eq.
  split.
  - destruct (proj1 (build_stage_layer_links_without_fallback
                       project Demo.fresh _ _ _ _ _
                       eq_refl eq_refl eq_refl Hbuild Hsave Hunpack)
                eq_refl eq_refl) as (w' & Hrun & Hlayer & Hs & Hp).
    exists w'. rewrite Hlayer.
    split_and!; [exact Hrun|reflexivity|exact Hs|exact Hp].
  - destruct (proj1 (proj2 (build_stage_layer_links_without_fallback
                              project Demo.cross_device _ _ _ _ _
                              eq_refl eq_refl eq_refl Hbuild Hsave Hunpack)
                       _ _ Hfile) eq_refl)
      as (w' & made & Hrun & Hos & _ & Hs & Hmade & Hp).
    exists w', made.
    split_and!; [exact Hrun|exact Hos|exact Hs|exact Hmade|exact Hp].
Defined.

(** C9, as stated, fails: with the stage directory on another file
    system the callback raises instead of copying; the file of the layer
    is not in the stage directory, and the prime directory is not even
    created. *)
Lemma build_stage_layer_cross_device_fails :
  stage_linkable Demo.cross_device = false ∧
  (build_stage_layer project Demo.cross_device).1 = Raise (Raised ShutilError "None") ∧
  is_Some (at_path (layer_dir (build_stage_layer project Demo.cross_device).2)
                   "usr/installed") ∧
  at_path (stage_dir (ws (build_stage_layer project Demo.cross_device).2))
          "usr/installed" = None ∧
  prime_dir (ws (build_stage_layer project Demo.cross_device).2) = None.
Proof. split_and!; try by vm_compute. vm_compute. eauto. Qed.

(** ** The driver *)

Section Driver.

Context `{Collaborators}.

(** [set(a) != set(b)] is false exactly when the two lists have the same
    elements, whatever their order and repetitions. *)
Lemma sets_differ_spec (a b : list string) :
  sets_differ a b = false ↔ ∀ x, x ∈ a ↔ x ∈ b.
Proof.
  unfold sets_differ. rewrite bool_decide_eq_false.
  split.
  - intros Heq x. apply dec_stable in Heq.
    by rewrite <- (elem_of_list_to_set (C := gset string) x a), Heq,
               elem_of_list_to_set.
  - intros Hsame Hne. apply Hne. apply set_eq. intros x.
    by rewrite !elem_of_list_to_set.
Qed.

(** *** Which calls a computation can make *)

Section Silent.

Variable P : call → Prop.

Lemma silent_bind {A B} (m : M A) (k : A → M B) :
  silent P m → (∀ x, silent P (k x)) → silent P (m ≫= k).
Proof.
  intros Hm Hk w c HP. unfold mbind, M_bind, bind.
  destruct (m w) as [[x|e] w1] eqn:Hrun.
  - intros Hin. apply Hk in Hin; [|done]. apply Hm; [done|]. by rewrite Hrun.
  - intros Hin. apply Hm; [done|]. by rewrite Hrun.
Qed.

Lemma silent_same_calls {A} (m : M A) :
  (∀ w, calls (m w).2 = calls w) → silent P m.
Proof. intros Hsame w c _. by rewrite Hsame. Qed.

Lemma silent_one_call {A} (m : M A) c0 :
  ¬ P c0 → (∀ w, calls (m w).2 = (calls w ++ [c0])%list) → silent P m.
Proof.
  intros Hc0 Hcalls w c HP. rewrite Hcalls, elem_of_app, list_elem_of_singleton.
  intros [?| ->]; done.
Qed.

Lemma silent_on_workspace {A} c0
    (op : workspace lm_state → outcome A * workspace lm_state) :
  ¬ P c0 → silent P (on_workspace c0 op).
Proof.
  intros Hc0. apply (silent_one_call _ c0 Hc0). intros w.
  unfold on_workspace. cbn. by destruct (op _).
Qed.

Lemma silent_on_engine {A} c0 (op : engine_state → outcome A * engine_state) :
  ¬ P c0 → silent P (on_engine c0 op).
Proof.
  intros Hc0. apply (silent_one_call _ c0 Hc0). intros w.
  unfold on_engine. cbn. by destruct (op _).
Qed.

Lemma silent_print s : silent P (print s).
Proof. by apply silent_same_calls. Qed.

Lemma silent_raise {A} e : silent P (raise (A := A) e).
Proof. by apply silent_same_calls. Qed.

Lemma silent_ret {A} (x : A) : silent P (mret x).
Proof. by apply silent_same_calls. Qed.

Lemma silent_get : silent P get.
Proof. by apply silent_same_calls. Qed.

Lemma silent_of_outcome {A} (o : outcome A) : silent P (of_outcome o).
Proof. by apply silent_same_calls. Qed.

Lemma silent_query {A} c0 (f : lm_state → outcome A) :
  ¬ P c0 → silent P (query c0 f).
Proof. intros Hc0. by apply (silent_one_call _ c0 Hc0). Qed.

Lemma silent_record c0 : ¬ P c0 → silent P (record c0).
Proof. intros Hc0. by apply (silent_one_call _ c0 Hc0). Qed.

Lemma silent_on_execute a : ¬ P (CallExecute a) → silent P (on_execute a).
Proof.
  intros Hc0. apply (silent_one_call _ _ Hc0). intros w.
  unfold on_execute. cbn. by destruct (ctx_execute _ _) as [r [x layer]].
Qed.

Lemma silent_write_image_data image_data : silent P (write_image_data image_data).
Proof. apply silent_same_calls. intros w. by destruct image_data. Qed.

Lemma silent_remove_layer_dir : ¬ P CallRmtree → silent P remove_layer_dir.
Proof.
  intros Hrm w c HP. unfold remove_layer_dir, mbind, M_bind, bind, get, record, modify.
  destruct (layer_dir w); cbn; [|done].
  rewrite elem_of_app, list_elem_of_singleton. by intros [?| ->].
Qed.

Lemma silent_print_plan actions : ∀ printed, silent P (print_plan actions printed).
Proof.
  induction actions as [|a rest IH]; intros printed; simpl.
  - apply silent_ret.
  - case_decide; [|apply IH].
    apply silent_bind; [apply silent_of_outcome|intros m].
    apply silent_bind; [apply silent_print|intros _; apply IH].
Qed.

Lemma silent_for_each {A} (xs : list A) (body : A → M unit) :
  (∀ x, silent P (body x)) → silent P (for_each xs body).
Proof.
  intros Hbody. induction xs as [|x rest IH]; simpl.
  - apply silent_same_calls. done.
  - by apply (silent_bind (body x) (λ _, for_each rest body)).
Qed.

Lemma silent_finally {A} (body : M A) (leave : M unit) :
  silent P body → silent P leave → silent P (finally body leave).
Proof.
  intros Hbody Hleave w c HP. unfold finally.
  destruct (body w) as [r w1] eqn:Hrun.
  pose proof (Hleave w1 c HP) as Hleft.
  destruct (leave w1) as [[[]|e] w2]; simpl in *;
    intros Hin; apply Hleft in Hin; apply Hbody; try done; by rewrite Hrun.
Qed.

End Silent.

(** Each step of a computation in turn. *)
Ltac silence :=
  repeat first
    [ apply silent_ret | apply silent_print | apply silent_raise
    | apply silent_get | apply silent_of_outcome
    | apply silent_print_plan | apply silent_write_image_data
    | apply silent_query; simpl; tauto
    | apply silent_record; simpl; tauto
    | apply silent_on_execute; simpl; tauto
    | apply silent_on_workspace; simpl; tauto
    | apply silent_on_engine; simpl; tauto
    | apply silent_remove_layer_dir; simpl; tauto
    | apply silent_same_calls; done
    | match goal with
      | |- silent _ (_ ≫= _) => apply silent_bind; [|intros ?]
      end ].

(** *** Plan-only runs execute nothing *)


Lemma _do_step_plan_only_executes_nothing project_info options :
  plan_only options = true → silent is_execute (_do_step project_info options).
Proof.
  intros Hplan. unfold _do_step. rewrite Hplan.
  apply silent_bind; [destruct (update options); silence|intros _].
  apply silent_bind; [apply silent_query; simpl; tauto|].
  intros actions. silence. destruct x; silence.
Qed.



(** *** Only the check and the clean command invalidate *)

Lemma build_stage_layer_invalidates_nothing project_info :
  silent is_invalidation (build_stage_layer project_info).
Proof.
  unfold build_stage_layer. silence.
  destruct (layer_dir x); silence.
  - apply (silent_one_call _ _ CallExtract); [simpl; tauto|].
    intros w. unfold extract_to_layer_dir. cbn. by destruct (extract_stage_layer _ _).
  - apply (silent_one_call _ _ (CallCopytree false)); [simpl; tauto|].
    intros w. unfold copytree_to_stage. cbn. by destruct (copytree _ _ _).
  - apply (silent_one_call _ _ (CallCopytree true)); [simpl; tauto|].
    intros w. unfold copytree_to_prime. cbn. by destruct (copytree _ _ _).
Qed.

Lemma create_final_image_invalidates_nothing project_info :
  silent is_invalidation (create_final_image project_info).
Proof. unfold create_final_image. silence. Qed.

Lemma _do_step_invalidates_nothing project_info options :
  silent is_invalidation (_do_step project_info options).
Proof.
  unfold _do_step.
  apply silent_bind; [destruct (update options); silence|intros _].
  apply silent_bind; [apply silent_query; simpl; tauto|].
  intros actions. destruct (plan_only options).
  - silence. destruct x; silence.
  - unfold execution_context.
    apply silent_bind; [apply silent_on_workspace; simpl; tauto|intros _].
    apply silent_bind; [apply build_stage_layer_invalidates_nothing|intros _].
    apply silent_finally; [|apply create_final_image_invalidates_nothing].
    apply silent_for_each. intros a. unfold execute_action.
    case_decide; silence.
Qed.

(** *** The check on the stage packages *)

(** [process_parts] up to its check: the parts file is loaded and the
    lifecycle manager constructed. *)
Lemma process_parts_set_up options w part_data loaded :
  load_parts_file (file options) = Ok part_data →
  LifecycleManager part_data project (ws w) = (Ok (), loaded) →
  process_parts options w =
    (check_stage_packages;;
     if decide (default "prime" (truthy (command options)) = "clean")
     then _do_clean options;; sys_exit None
     else _do_step project options) (set_up options loaded w).
Proof.
  intros Hfile Hloaded. unfold process_parts, set_up.
  do 3 unfold mbind at 1, M_bind at 1, bind at 1, record at 1, modify at 1.
  unfold mbind at 1, M_bind at 1, bind at 1, of_outcome. rewrite Hfile.
  unfold mbind at 1, M_bind at 1, bind at 1, on_workspace. cbn.
  rewrite Hloaded. by rewrite <- !app_assoc.
Qed.

Lemma check_stage_packages_spec w pkgs deps recorded :
  get_stage_packages (lm (ws w)) = Ok pkgs →
  resolve_package_dependencies (lm (ws w)) pkgs = Ok deps →
  get_state_assets (lm (ws w)) = Ok recorded →
  ((∀ x, x ∈ deps ↔ x ∈ recorded) →
     check_stage_packages w =
       (Ok (), set_calls (calls w ++ [CallGetStagePackages;
                                      CallResolvePackageDependencies;
                                      CallGetStateAssets]) w)) ∧
  (¬ (∀ x, x ∈ deps ↔ x ∈ recorded) →
     ∀ cleaned reloaded,
       lf_clean (Some PULL) [] (ws w) = (Ok (), cleaned) →
       lf_reload_state cleaned = (Ok (), reloaded) →
       ∃ w', check_stage_packages w = (Ok (), w') ∧
             ws w' = reloaded ∧
             layer_dir w' = None ∧
             calls w' = (calls w ++ [CallGetStagePackages;
                                     CallResolvePackageDependencies;
                                     CallGetStateAssets;
                                     CallClean (Some PULL) []; CallReloadState]
                           ++ match layer_dir w with
                              | Some _ => [CallRmtree]
                              | None => []
                              end)%list ∧
             engine w' = engine w ∧
             image_data_tar w' = image_data_tar w ∧
             stdout w' = stdout w) ∧
  (¬ (∀ x, x ∈ deps ↔ x ∈ recorded) →
     ∃ more, calls (check_stage_packages w).2
             = (calls w ++ [CallGetStagePackages;
                            CallResolvePackageDependencies;
                            CallGetStateAssets]
                  ++ CallClean (Some PULL) [] :: more)%list).
Proof.
  intros Hpkgs Hdeps Hrecorded.
  unfold check_stage_packages, mbind, M_bind, bind, query. cbn.
  rewrite Hpkgs. cbn. rewrite Hdeps. cbn. rewrite Hrecorded. split_and!.
  - intros Hsame. apply sets_differ_spec in Hsame. rewrite Hsame.
    cbn. by rewrite <- !app_assoc.
  - intros Hdiffer cleaned reloaded Hclean Hreload.
    destruct (sets_differ deps recorded) eqn:Hcmp;
      [|destruct Hdiffer; by apply sets_differ_spec].
    unfold on_workspace, remove_layer_dir, mbind, M_bind, bind, get, record, modify.
    cbn. rewrite Hclean. cbn. rewrite Hreload. cbn.
    destruct (layer_dir w) eqn:Hlayer; cbn; eexists; (split; [reflexivity|]); cbn;
      (split_and!; try done; by rewrite <- !app_assoc).
  - intros Hdiffer.
    destruct (sets_differ deps recorded) eqn:Hcmp;
      [|destruct Hdiffer; by apply sets_differ_spec].
    unfold on_workspace, remove_layer_dir, mbind, M_bind, bind, get, record, modify.
    cbn. destruct (lf_clean _ _ _) as [[[]|e] cleaned]; cbn;
      [|eexists; by rewrite <- !app_assoc].
    destruct (lf_reload_state _) as [[[]|e] reloaded]; cbn;
      [|eexists; by rewrite <- !app_assoc].
    destruct (layer_dir w); cbn; eexists; by rewrite <- !app_assoc.
Qed.

(** C2. [process_parts] compares the resolved dependencies with the
    packages recorded by the pull step as sets.  Once the callbacks are
    registered, the parts file is loaded, the lifecycle manager
    constructed and the three queries answered: when the two lists
    differ as sets and [lf.clean] and [lf.reload_state] return,
    [process_parts] goes on to its command in the state that
    [reload_state] left, without layer directory, having called
    [lf.clean(Step.PULL)], [lf.reload_state()] and, where the layer
    directory existed, [shutil.rmtree]; when they differ and [lf.clean]
    raises, the exception leaves [process_parts] after that call and the
    layer directory stays.  When the lists have the same elements,
    [process_parts] goes on in the state the constructor left, with the
    layer directory as it was and no call but the queries, and, the
    command being a step command, not one call of the whole run cleans,
    reloads or removes the layer directory. *)
Theorem check_stage_packages_invalidates
    options w part_data loaded pkgs deps recorded :
  load_parts_file (file options) = Ok part_data →
  LifecycleManager part_data project (ws w) = (Ok (), loaded) →
  get_stage_packages (lm loaded) = Ok pkgs →
  resolve_package_dependencies (lm loaded) pkgs = Ok deps →
  get_state_assets (lm loaded) = Ok recorded →
  (¬ (∀ x, x ∈ deps ↔ x ∈ recorded) →
     (∀ cleaned reloaded,
        lf_clean (Some PULL) [] loaded = (Ok (), cleaned) →
        lf_reload_state cleaned = (Ok (), reloaded) →
        ∃ w1,
          process_parts options w =
            (if decide (default "prime" (truthy (command options)) = "clean")
             then _do_clean options;; sys_exit None
             else _do_step project options) w1 ∧
          ws w1 = reloaded ∧
          layer_dir w1 = None ∧
          calls w1 = (calls w ++ [CallRegisterPrologue; CallRegisterEpilogue;
                                  CallLoadPartsFile (file options);
                                  CallLifecycleManager;
                                  CallGetStagePackages;
                                  CallResolvePackageDependencies;
                                  CallGetStateAssets;
                                  CallClean (Some PULL) []; CallReloadState]
                        ++ match layer_dir w with
                           | Some _ => [CallRmtree]
                           | None => []
                           end)%list ∧
          engine w1 = engine w ∧
          image_data_tar w1 = image_data_tar w ∧
          stdout w1 = stdout w) ∧
     (∀ e kept,
        lf_clean (Some PULL) [] loaded = (Raise e, kept) →
        ∃ w1,
          process_parts options w = (Raise e, w1) ∧
          layer_dir w1 = layer_dir w ∧
          calls w1 = (calls w ++ [CallRegisterPrologue; CallRegisterEpilogue;
                                  CallLoadPartsFile (file options);
                                  CallLifecycleManager;
                                  CallGetStagePackages;
                                  CallResolvePackageDependencies;
                                  CallGetStateAssets;
                                  CallClean (Some PULL) []])%list)) ∧
  ((∀ x, x ∈ deps ↔ x ∈ recorded) →
     (∃ w1,
        process_parts options w =
          (if decide (default "prime" (truthy (command options)) = "clean")
           then _do_clean options;; sys_exit None
           else _do_step project options) w1 ∧
        ws w1 = loaded ∧
        layer_dir w1 = layer_dir w ∧
        calls w1 = (calls w ++ [CallRegisterPrologue; CallRegisterEpilogue;
                                CallLoadPartsFile (file options);
                                CallLifecycleManager;
                                CallGetStagePackages;
                                CallResolvePackageDependencies;
                                CallGetStateAssets])%list) ∧
     (default "prime" (truthy (command options)) ≠ "clean" →
      ∀ c, is_invalidation c →
           c ∈ calls (process_parts options w).2 → c ∈ calls w)).
Proof.
  intros Hfile Hloaded Hpkgs Hdeps Hrecorded.
  rewrite (process_parts_set_up _ _ _ _ Hfile Hloaded).
  destruct (check_stage_packages_spec (set_up options loaded w) pkgs deps recorded
              Hpkgs Hdeps Hrecorded) as (Hequal & Hdiffer & _).
  split.
  - intros Hne. split.
    + intros cleaned reloaded Hclean Hreload.
      destruct (Hdiffer Hne cleaned reloaded Hclean Hreload)
        as (w1 & Hcheck & Hws & Hlayer & Hcalls & Hengine & Harchive & Hout).
      exists w1. unfold mbind at 1, M_bind at 1, bind at 1. rewrite Hcheck.
      split_and!; try done.
      rewrite Hcalls. cbn. by rewrite <- !app_assoc.
    + intros e kept Hclean.
      unfold mbind at 1, M_bind at 1, bind at 1.
      unfold check_stage_packages, mbind, M_bind, bind, query. cbn.
      rewrite Hpkgs. cbn. rewrite Hdeps. cbn. rewrite Hrecorded.
      destruct (sets_differ deps recorded) eqn:Hcmp;
        [|destruct Hne; by apply sets_differ_spec].
      unfold on_workspace. cbn. rewrite Hclean. cbn.
      eexists. split; [reflexivity|]. cbn. split; [done|].
      by rewrite <- !app_assoc.
  - intros Hsame. split.
    + unfold mbind at 1, M_bind at 1, bind at 1. rewrite (Hequal Hsame).
      eexists. split; [reflexivity|]. cbn. split_and!; try done.
      by rewrite <- !app_assoc.
    + intros Hstep c Hc. rewrite decide_False by done.
      unfold mbind at 1, M_bind at 1, bind at 1. rewrite (Hequal Hsame).
      intros Hin. apply _do_step_invalidates_nothing in Hin; [|done].
      cbn in Hin. rewrite !elem_of_app in Hin.
      destruct Hin as [[?|Hnew]|Hnew]; [done| |];
        repeat (apply elem_of_cons in Hnew as [->|Hnew]; [by destruct Hc|]);
        by apply elem_of_nil in Hnew.
Qed.

(** C7. [main] turns the outcome of [process_parts] into the exit
    status: 0 when it returns or leaves through [sys.exit()], 1 for an
    [OSError], 2 for a [SchemaValidationError], 3 for an
    [InvalidPartName] and 4 for a [ValueError], each with its
    subclasses. *)
Theorem main_exit_codes options w r w1 :
  process_parts options w = (r, w1) →
  (r = Ok () ∨ r = Raise (SystemExit None) → (run options w).1 = 0) ∧
  (∀ c err, r = Raise (Raised c err) →
     (subclass c OSError = true → (run options w).1 = 1) ∧
     (subclass c SchemaValidationError = true → (run options w).1 = 2) ∧
     (subclass c InvalidPartName = true → (run options w).1 = 3) ∧
     (subclass c ValueError = true → (run options w).1 = 4)).
Proof.
  intros Hparts. unfold run, main. rewrite Hparts. split.
  - by intros [-> | ->].
  - intros c err ->.
    destruct c; vm_compute; split_and!; (reflexivity || discriminate).
Qed.

(** *** What a plan-only run prints *)




Lemma _action_message_undefined a :
  (step a = STAGE ∨ step a = PRIME) → type a = UPDATE →
  _action_message a = Raise (Raised KeyError "ActionType").
Proof.
  destruct a as [name s t r]; simpl. intros [-> | ->] ->;
    unfold _action_message; simpl; by destruct (truthy r).
Qed.




End Driver.


(** The check on the demo collaborators.  A run that finds new packages
    and the layer of an earlier run cleans the pull step, reloads and
    removes the layer directory before it plans; a run that finds the
    packages of the last pull goes on with the layer directory, and
    nothing of what it calls invalidates. *)
Lemma check_stage_packages_invalidates_demo :
  (∃ w1,
     process_parts (Demo.options_of (Some "stage") true) Demo.changed
       = _do_step project (Demo.options_of (Some "stage") true) w1 ∧
     ws w1 = Workspace (Demo.LmDemo ["curl"; "wget"] [] Demo.prime_plan) None None ∧
     layer_dir w1 = None ∧
     calls w1 = [ CallRegisterPrologue; CallRegisterEpilogue;
                  CallLoadPartsFile "parts.yaml"; CallLifecycleManager;
                  CallGetStagePackages; CallResolvePackageDependencies;
                  CallGetStateAssets;
                  CallClean (Some PULL) []; CallReloadState; CallRmtree ] ∧
     engine w1 = engine Demo.changed ∧
     image_data_tar w1 = image_data_tar Demo.changed ∧
     stdout w1 = stdout Demo.changed) ∧
  (∃ w1,
     process_parts (Demo.options_of (Some "stage") false) Demo.cached
       = _do_step project (Demo.options_of (Some "stage") false) w1 ∧
     ws w1 = ws Demo.cached ∧
     layer_dir w1 = Some Demo.cached_layer ∧
     calls w1 = [ CallRegisterPrologue; CallRegisterEpilogue;
                  CallLoadPartsFile "parts.yaml"; CallLifecycleManager;
                  CallGetStagePackages; CallResolvePackageDependencies;
                  CallGetStateAssets ]) ∧
  (∀ c, is_invalidation c →
        c ∉ calls (process_parts (Demo.options_of (Some "stage") false) Demo.cached).2).
Proof.
  pose proof (check_stage_packages_invalidates
                (Demo.options_of (Some "stage") true) Demo.changed
                () (ws Demo.changed) ["curl"; "wget"] ["curl"; "wget"] ["curl"]
                eq_refl eq_refl eq_refl eq_refl eq_refl) as [Hdiffer _].
  pose proof (check_stage_packages_invalidates
                (Demo.options_of (Some "stage") false) Demo.cached
                () (ws Demo.cached) ["curl"] ["curl"] ["curl"]
                eq_refl eq_refl eq_refl eq_refl eq_refl) as [_ Hequal].
  assert (¬ (∀ x : string, x ∈ ["curl"; "wget"] ↔ x ∈ ["curl"])) as Hne.
  { intros Hsame.
    assert ("wget" ∈ ["curl"]) as Hin
      by (apply Hsame, list_elem_of_further, list_elem_of_here).
    by apply list_elem_of_singleton in Hin. }
  split_and!.
  - apply (proj1 (Hdiffer Hne)
             (Workspace (Demo.LmDemo ["curl"; "wget"] [] Demo.prime_plan) None None)
             (Workspace (Demo.LmDemo ["curl"; "wget"] [] Demo.prime_plan) None None));
      reflexivity.
  - apply (proj1 (Hequal (λ x, conj (λ Hx, Hx) (λ Hx, Hx)))).
  - intros c Hc Hin.
    apply (proj2 (Hequal (λ x, conj (λ Hx, Hx) (λ Hx, Hx)))) in Hin;
      [|discriminate|exact Hc].
    by apply elem_of_nil in Hin.
Defined.

Lemma main_exit_codes_demo :
  (run (Demo.options_of None false) Demo.fresh).1 = 0 ∧
  (run Demo.missing_file Demo.cached).1 = 1.
Proof.
  split.
  - assert (process_parts (Demo.options_of None false) Demo.fresh
            = (Ok (), (process_parts (Demo.options_of None false) Demo.fresh).2))
      as Hrun by (vm_compute; reflexivity).
    exact (proj1 (main_exit_codes _ _ _ _ Hrun) (or_introl eq_refl)).
  - assert (process_parts Demo.missing_file Demo.cached
            = (Raise (Raised FileNotFoundError "No such file or directory"),
               (process_parts Demo.missing_file Demo.cached).2))
      as Hrun by (vm_compute; reflexivity).
    exact (proj1 (proj2 (main_exit_codes _ _ _ _ Hrun) _ _ eq_refl) eq_refl).
Defined.



(** * Further properties *)

(** ** Step names *)

(** X1. [_parse_step] gives the pull, build and stage steps for their
    names and the prime step for every other name, the empty string and
    [clean] included: it never fails. *)
Theorem _parse_step_names (name : string) :
  (_parse_step name = PULL ↔ name = "pull") ∧
  (_parse_step name = BUILD ↔ name = "build") ∧
  (_parse_step name = STAGE ↔ name = "stage") ∧
  (_parse_step name = PRIME ↔ name ∉ ["pull"; "build"; "stage"]).
Proof.
  unfold _parse_step, step_map. simpl.
  rewrite !not_elem_of_cons.
  repeat case_decide; subst; simpl; split_and!; split;
    try done; try (intros (? & ? & ? & _); done).
  all: intros _; split_and!; try done; try apply not_elem_of_nil; by intros ->.
Qed.

(** ** Malformed archives *)

Section Malformed.

Implicit Types (members : list (string * node blob)) (dest : option dir).

(** X2. What each defect of the archive raises, for an archive that has
    a [manifest.json] with JSON in it: an empty manifest list and an
    empty layer list raise [IndexError]; a first entry without the key
    [Layers] raises [KeyError]; a last layer name that is no member of
    the archive raises [KeyError]; one that names a directory raises
    [ValueError]; one that names a file that is not a tar archive raises
    [ReadError]. *)
Theorem extract_stage_layer_defects members manifest dest :
  Tarfile.getmember "manifest.json" members = Some (NFile (JsonText manifest)) →
  (manifest = JArr [] →
     extract_stage_layer (Some (TarData members)) dest
       = (Raise (Raised IndexError "list index out of range"), dest)) ∧
  (∀ fields others,
     manifest = JArr (JObj fields :: others) →
     (dict_get "Layers" fields = None →
        extract_stage_layer (Some (TarData members)) dest
          = (Raise (Raised KeyError "Layers"), dest)) ∧
     (dict_get "Layers" fields = Some (JArr []) →
        extract_stage_layer (Some (TarData members)) dest
          = (Raise (Raised IndexError "list index out of range"), dest)) ∧
     (∀ layers name,
        dict_get "Layers" fields = Some (JArr layers) →
        last layers = Some (JStr name) →
        (Tarfile.getmember name members = None →
           extract_stage_layer (Some (TarData members)) dest
             = (Raise (Raised KeyError ("filename '" ++ name ++ "' not found")), dest)) ∧
        (Tarfile.getmember name members = Some NDir →
           extract_stage_layer (Some (TarData members)) dest
             = (Raise (Raised ValueError "nothing to open"), dest)) ∧
        (∀ bytes,
           Tarfile.getmember name members = Some (NFile (Raw bytes)) →
           extract_stage_layer (Some (TarData members)) dest
             = (Raise (Raised TarReadError "file could not be opened successfully"),
                dest)))).
Proof.
  intros Hmanifest.
  unfold extract_stage_layer, stage_layer_entries, Tarfile.extractfile. simpl.
  rewrite Hmanifest. simpl. split.
  - by intros ->.
  - intros fields others ->. simpl. split_and!.
    + by intros ->.
    + by intros ->.
    + intros layers name -> Hlast. simpl. rewrite Hlast. simpl. split_and!.
      * by intros ->.
      * by intros ->.
      * by intros bytes ->.
Qed.

Lemma extract_stage_layer_defects_demo :
  extract_stage_layer
    (Some (TarData [ ("manifest.json",
                      NFile (JsonText (JArr [ JObj [ ("Layers", JArr []) ] ]))) ]))
    None
  = (Raise (Raised IndexError "list index out of range"), None) ∧
  extract_stage_layer
    (Some (TarData [ ("manifest.json",
                      NFile (JsonText (JArr [ JObj [ ("Layers",
                                                      JArr [ JStr "gone.tar" ]) ] ]))) ]))
    None
  = (Raise (Raised KeyError "filename 'gone.tar' not found"), None).
Proof.
  split.
  - apply (proj1 (proj2 (proj2 (extract_stage_layer_defects
             [ ("manifest.json",
                NFile (JsonText (JArr [ JObj [ ("Layers", JArr []) ] ]))) ]
             (JArr [ JObj [ ("Layers", JArr []) ] ]) None eq_refl)
             [ ("Layers", JArr []) ] [] eq_refl))).
    reflexivity.
  - apply (proj1 (proj2 (proj2 (proj2 (extract_stage_layer_defects
             [ ("manifest.json",
                NFile (JsonText (JArr [ JObj [ ("Layers",
                                                JArr [ JStr "gone.tar" ]) ] ]))) ]
             (JArr [ JObj [ ("Layers", JArr [ JStr "gone.tar" ]) ] ]) None eq_refl)
             [ ("Layers", JArr [ JStr "gone.tar" ]) ] [] eq_refl))
             [ JStr "gone.tar" ] "gone.tar" eq_refl eq_refl)).
    reflexivity.
Defined.

End Malformed.

(** ** The build description of the final image *)

Section FinalDescription.

Import Textwrap.

(** X3. The build description of [create_final_image], for a series and
    a prime path without line break: the base-image directive and one
    directive that copies the prime directory to the root of the image,
    with the indentation of the source removed. *)
Theorem final_dockerfile_text series prime_dir :
  has_newline series = false →
  has_newline prime_dir = false →
  final_dockerfile series prime_dir =
    "FROM ubuntu:" ++ series ++ String newline
      ("COPY " ++ prime_dir ++ " /" ++ String newline "").
Proof.
  intros Hseries Hprime. unfold final_dockerfile, dedent.
  rewrite <- (app_assoc_string "        FROM ubuntu:" series).
  rewrite lines_app_line by (rewrite !has_newline_app, Hseries; reflexivity).
  rewrite <- (app_assoc_string prime_dir " /"),
          <- (app_assoc_string "        COPY " (prime_dir ++ " /")).
  rewrite lines_app_line by (rewrite !has_newline_app, Hprime; reflexivity).
  rewrite lines_single by reflexivity.
  rewrite <- (app_assoc_string prime_dir " /" (String newline "")).
  vm_compute. reflexivity.
Qed.

Lemma final_dockerfile_text_demo :
  final_dockerfile "20.04" "prime" =
    "FROM ubuntu:" ++ "20.04" ++ String newline
      ("COPY " ++ "prime" ++ " /" ++ String newline "").
Proof. apply final_dockerfile_text; reflexivity. Defined.

End FinalDescription.

(** ** [main] and [process_parts] *)

Section Main.

Context `{Collaborators}.

(** X4. [main] catches four classes of exceptions only.  An exception of
    [process_parts] of any other class, such as the [KeyError] of an
    archive without manifest or an error of the engine, leaves [main] as
    it was raised, nothing is printed, and the exit status is 1, the
    status of a file-system error. *)
Theorem main_lets_other_errors_through options w c err w1 :
  process_parts options w = (Raise (Raised c err), w1) →
  subclass c OSError = false →
  subclass c SchemaValidationError = false →
  subclass c InvalidPartName = false →
  subclass c ValueError = false →
  main options w = (Raise (Raised c err), w1) ∧ (run options w).1 = 1.
Proof.
  intros Hparts Hos Hschema Hname Hvalue. unfold run, main.
  by rewrite Hparts, Hos, Hschema, Hname, Hvalue.
Qed.

(** X5. Without a command, and with an empty one, [process_parts] does
    what it does for the command [prime]. *)
Theorem process_parts_default_command f u p ps w :
  process_parts {| file := f; update := u; plan_only := p;
                   command := None; parts := ps |} w
  = process_parts {| file := f; update := u; plan_only := p;
                     command := Some "prime"; parts := ps |} w ∧
  process_parts {| file := f; update := u; plan_only := p;
                   command := Some ""; parts := ps |} w
  = process_parts {| file := f; update := u; plan_only := p;
                     command := Some "prime"; parts := ps |} w.
Proof. split; unfold process_parts, _do_step; simpl; reflexivity. Qed.

End Main.

Lemma main_lets_other_errors_through_demo :
  main (Demo.options_of None false) (Faulty.first_run 2)
  = (Raise (Raised KeyError "filename 'manifest.json' not found"),
     (process_parts (Demo.options_of None false) (Faulty.first_run 2)).2) ∧
  (run (Demo.options_of None false) (Faulty.first_run 2)).1 = 1.
Proof.
  apply main_lets_other_errors_through;
    [vm_compute; reflexivity|reflexivity..].
Defined.

(** ** Cleaning *)

Section Clean.

Context `{Collaborators}.

(** X6. Without plan-only, [_do_clean] asks the lifecycle manager to
    clean the named parts, all steps of them, and then removes the layer
    directory; it announces the cleaning of all parts when no part is
    named.  When the lifecycle manager raises, the exception goes through
    and the layer directory is not removed. *)
Theorem _do_clean_removes_layer_dir options w :
  plan_only options = false →
  (∀ cleaned,
     lf_clean None (parts options) (ws w) = (Ok (), cleaned) →
     ∃ w', _do_clean options w = (Ok (), w') ∧
           ws w' = cleaned ∧
           layer_dir w' = None ∧
           stdout w' = (stdout w ++ match parts options with
                                    | [] => ["Clean all parts."]
                                    | _ => []
                                    end)%list) ∧
  (∀ e kept,
     lf_clean None (parts options) (ws w) = (Raise e, kept) →
     ∃ w', _do_clean options w = (Raise e, w') ∧
           layer_dir w' = layer_dir w).
Proof.
  intros Hplan. unfold _do_clean. rewrite Hplan.
  unfold on_workspace, remove_layer_dir, print, modify, record, get,
    mbind, M_bind, bind, mret, M_ret, ret.
  split.
  - intros cleaned Hclean.
    destruct (parts options) as [|p ps] eqn:Hparts; cbn; rewrite Hclean; cbn;
      destruct (layer_dir w) eqn:Hlayer; cbn; eexists; (split; [reflexivity|]); cbn;
      rewrite ?app_nil_r; done.
  - intros e kept Hclean.
    destruct (parts options) as [|p ps] eqn:Hparts; cbn; rewrite Hclean; cbn;
      eexists; (split; [reflexivity|]); done.
Qed.

End Clean.

Lemma _do_clean_removes_layer_dir_demo :
  (∃ w', _do_clean (Faulty.clean_options []) Faulty.later_run = (Ok (), w') ∧
         ws w' = Workspace (Demo.LmDemo ["curl"] [] Demo.prime_plan) None None ∧
         layer_dir w' = None ∧
         stdout w' = ["Clean all parts."]) ∧
  (∃ w', _do_clean (Faulty.clean_options ["lib"]) Faulty.later_run
         = (Raise (Raised InvalidPartName "A part named 'lib' is not defined"), w') ∧
         layer_dir w' = Some Demo.cached_layer).
Proof.
  split.
  - apply (proj1 (_do_clean_removes_layer_dir
                    (Faulty.clean_options []) Faulty.later_run eq_refl)).
    reflexivity.
  - apply (proj2 (_do_clean_removes_layer_dir
                    (Faulty.clean_options ["lib"]) Faulty.later_run eq_refl)
             _ (ws Faulty.later_run)).
    reflexivity.
Defined.

(** ** Running the plan *)

Section Execution.

Context `{Collaborators}.

(** X7. The plan is run in order and the run stops at the first action
    that has no message, the update of a stage or prime step: the actions
    before it are run as if the plan ended there, then [KeyError] is
    raised; that action and the actions after it are neither announced
    nor executed. *)
Theorem execution_stops_without_message before a after w :
  (step a = STAGE ∨ step a = PRIME) →
  type a = UPDATE →
  for_each (before ++ a :: after) execute_action w
  = (for_each before execute_action ≫= λ _, raise (Raised KeyError "ActionType")) w.
Proof.
  intros Hstep Htype. revert w.
  induction before as [|b before IH]; intros w; simpl.
  - unfold execute_action, mbind, M_bind, bind, of_outcome, raise, ret.
    rewrite decide_True by (rewrite Htype; discriminate).
    by rewrite (_action_message_undefined a Hstep Htype).
  - unfold mbind, M_bind, bind in *.
    destruct (execute_action b w) as [[[]|e] w1]; [apply IH|done].
Qed.

End Execution.

Lemma execution_stops_without_message_demo :
  for_each
    ([ {| part_name := "app"; step := BUILD; type := RUN; reason := None |} ]
     ++ {| part_name := "app"; step := STAGE; type := UPDATE; reason := None |}
     :: [ {| part_name := "app"; step := PRIME; type := RUN; reason := None |} ])
    execute_action Demo.cached
  = (for_each
       [ {| part_name := "app"; step := BUILD; type := RUN; reason := None |} ]
       execute_action
     ≫= λ _, raise (Raised KeyError "ActionType")) Demo.cached.
Proof.
  apply execution_stops_without_message; [by left|reflexivity].
Defined.

(** ** Failures of the stage materializer *)

Section MaterializerFailures.

Context `{Collaborators}.

(** X8. On a cache miss, a failure of the engine to build the image or to
    start the export goes through the callback and leaves the archive
    [image_data.tar], the working directories and the absent layer
    directory as they were.  The archive is opened for writing before the
    first chunk of the export is asked for: when the stream breaks, the
    exception goes through, the archive holds what was written up to
    then, and there is no layer directory.  When the export is complete
    and cannot be read as an image, the exception of the reader goes
    through, the archive is there and the layer directory is not. *)
Theorem build_stage_layer_failure_leaves_no_cache project_info w :
  layer_dir w = None →
  (∀ e g,
     images_build "craft-parts-stage"
       (stage_dockerfile (series project_info)
          (stage_packages_from_parts (lm (ws w)))) (engine w) = (Raise e, g) →
     ∃ w', build_stage_layer project_info w = (Raise e, w') ∧
           layer_dir w' = None ∧
           image_data_tar w' = image_data_tar w ∧
           ws w' = ws w) ∧
  (∀ img g e g',
     images_build "craft-parts-stage"
       (stage_dockerfile (series project_info)
          (stage_packages_from_parts (lm (ws w)))) (engine w) = (Ok img, g) →
     image_save img g = (Raise e, g') →
     ∃ w', build_stage_layer project_info w = (Raise e, w') ∧
           layer_dir w' = None ∧
           image_data_tar w' = image_data_tar w ∧
           ws w' = ws w) ∧
  (∀ img g partial e g',
     images_build "craft-parts-stage"
       (stage_dockerfile (series project_info)
          (stage_packages_from_parts (lm (ws w)))) (engine w) = (Ok img, g) →
     image_save img g = (Ok (Broken partial e), g') →
     ∃ w', build_stage_layer project_info w = (Raise e, w') ∧
           layer_dir w' = None ∧
           image_data_tar w' = Some partial ∧
           ws w' = ws w ∧
           calls w' = (calls w ++ [CallImagesBuild "craft-parts-stage"
                                     (stage_dockerfile (series project_info)
                                        (stage_packages_from_parts (lm (ws w))));
                                   CallImageSave])%list) ∧
  (∀ img g data g' e,
     images_build "craft-parts-stage"
       (stage_dockerfile (series project_info)
          (stage_packages_from_parts (lm (ws w)))) (engine w) = (Ok img, g) →
     image_save img g = (Ok (Complete data), g') →
     stage_layer_entries (Some data) = Raise e →
     ∃ w', build_stage_layer project_info w = (Raise e, w') ∧
           layer_dir w' = None ∧
           image_data_tar w' = Some data ∧
           ws w' = ws w).
Proof.
  intros Hmiss.
  unfold build_stage_layer, mbind, M_bind, bind, get. rewrite Hmiss.
  unfold print, modify, on_engine, write_image_data, extract_to_layer_dir,
    extract_stage_layer, raise.
  cbn -[stage_layer_entries]. split_and!.
  - intros e g Hbuild. rewrite Hbuild. cbn -[stage_layer_entries]. by eexists.
  - intros img g e g' Hbuild Hsave. rewrite Hbuild. cbn -[stage_layer_entries].
    rewrite Hsave. cbn -[stage_layer_entries]. by eexists.
  - intros img g partial e g' Hbuild Hsave. rewrite Hbuild. cbn -[stage_layer_entries].
    rewrite Hsave. cbn -[stage_layer_entries].
    eexists. split; [reflexivity|]. cbn. split_and!; try done.
    by rewrite <- app_assoc.
  - intros img g data g' e Hbuild Hsave Hentries.
    rewrite Hbuild. cbn -[stage_layer_entries]. rewrite Hsave.
    cbn -[stage_layer_entries]. rewrite Hentries, Hmiss. cbn -[stage_layer_entries].
    by eexists.
Qed.

(** X9. An image whose top layer is empty: nothing is unpacked, the
    layer directory is not created, and the copy into the stage directory
    fails with [FileNotFoundError], an [OSError].  The next run finds no
    layer directory and builds again. *)
Theorem build_stage_layer_empty_layer project_info w img g data g' :
  layer_dir w = None →
  images_build "craft-parts-stage"
    (stage_dockerfile (series project_info)
       (stage_packages_from_parts (lm (ws w)))) (engine w) = (Ok img, g) →
  image_save img g = (Ok (Complete data), g') →
  stage_layer_entries (Some data) = Ok [] →
  ∃ w', build_stage_layer project_info w
        = (Raise (Raised FileNotFoundError "No such file or directory"), w') ∧
        subclass FileNotFoundError OSError = true ∧
        layer_dir w' = None ∧
        ws w' = ws w.
Proof.
  intros Hmiss Hbuild Hsave Hentries.
  assert (extract_stage_layer (Some data) None = (Ok (), None)) as Hunpack
    by (unfold extract_stage_layer; by rewrite Hentries).
  destruct (build_stage_layer_unpacked _ _ _ _ _ _ _ _ Hmiss Hbuild Hsave Hunpack)
    as (w1 & -> & Hlayer & _ & Hws & _).
  unfold mbind, M_bind, bind, of_outcome, copytree_to_stage. cbn.
  rewrite Hlayer. cbn.
  eexists. split; [reflexivity|].
  split_and!; [reflexivity|by cbn|cbn; rewrite Hws; by destruct (ws w)].
Qed.

(** X10. On a cache miss with a stage directory that already exists, when
    the layer is built, exported and unpacked without error, the copy
    into the stage directory fails with [FileExistsError]: the layer
    directory is there, the stage directory is as it was and the prime
    directory was not touched.  The next invocation finds the layer
    directory and copies nothing. *)
Theorem build_stage_layer_stage_exists project_info w img g data g' (tree old : dir) :
  layer_dir w = None →
  stage_dir (ws w) = Some old →
  images_build "craft-parts-stage"
    (stage_dockerfile (series project_info)
       (stage_packages_from_parts (lm (ws w)))) (engine w) = (Ok img, g) →
  image_save img g = (Ok (Complete data), g') →
  extract_stage_layer (Some data) None = (Ok (), Some tree) →
  ∃ w', build_stage_layer project_info w
        = (Raise (Raised FileExistsError "File exists"), w') ∧
        subclass FileExistsError OSError = true ∧
        layer_dir w' = Some tree ∧
        ws w' = ws w ∧
        ∃ w'', build_stage_layer project_info w' = (Ok (), w'') ∧
               calls w'' = calls w' ∧
               ws w'' = ws w.
Proof.
  intros Hmiss Hstage Hbuild Hsave Hunpack.
  destruct (build_stage_layer_unpacked _ _ _ _ _ _ _ _ Hmiss Hbuild Hsave Hunpack)
    as (w1 & -> & Hlayer & _ & Hws & _).
  unfold mbind, M_bind, bind, of_outcome, copytree_to_stage. cbn.
  rewrite Hlayer, Hws, Hstage. cbn.
  assert (Workspace (lm (ws w)) (Some old) (prime_dir (ws w)) = ws w) as Hsame
    by (destruct (ws w); simpl in *; by subst).
  eexists. split; [reflexivity|]. cbn. rewrite Hws, Hsame.
  split_and!; [reflexivity|done|done|].
  eexists. split; [by apply (build_stage_layer_hit _ _ tree)|]. cbn.
  by rewrite Hws, Hsame.
Qed.

(** X16. An entry of the layer that cannot be unpacked stops the
    extraction part-way, and the callback with it; what was unpacked up
    to then stays in the layer directory.  The next invocation takes that
    directory for the cached layer: it builds and unpacks nothing, and
    copies nothing into the working directories. *)
Theorem build_stage_layer_partial_layer project_info w img g data g' e (tree : dir) :
  layer_dir w = None →
  images_build "craft-parts-stage"
    (stage_dockerfile (series project_info)
       (stage_packages_from_parts (lm (ws w)))) (engine w) = (Ok img, g) →
  image_save img g = (Ok (Complete data), g') →
  extract_stage_layer (Some data) None = (Raise e, Some tree) →
  ∃ w', build_stage_layer project_info w = (Raise e, w') ∧
        layer_dir w' = Some tree ∧
        ws w' = ws w ∧
        ∃ w'', build_stage_layer project_info w' = (Ok (), w'') ∧
               calls w'' = calls w' ∧
               layer_dir w'' = Some tree ∧
               ws w'' = ws w.
Proof.
  intros Hmiss Hbuild Hsave Hunpack.
  destruct (build_stage_layer_unpacked _ _ _ _ _ _ _ _ Hmiss Hbuild Hsave Hunpack)
    as (w1 & -> & Hlayer & _ & Hws & _).
  unfold mbind, M_bind, bind, of_outcome.
  eexists. split; [reflexivity|]. split_and!; [done|done|].
  eexists. split; [by apply (build_stage_layer_hit _ _ tree)|]. by cbn.
Qed.

End MaterializerFailures.

Lemma build_stage_layer_failure_leaves_no_cache_demo :
  (∃ w', build_stage_layer project (Faulty.first_run 0)
         = (Raise (Raised DockerException "Cannot connect to the Docker daemon"), w') ∧
         layer_dir w' = None ∧
         image_data_tar w' = None ∧
         ws w' = ws (Faulty.first_run 0)) ∧
  (∃ w', build_stage_layer project (Faulty.first_run 5)
         = (Raise (Raised DockerException "Connection aborted"), w') ∧
         layer_dir w' = None ∧
         image_data_tar w' = None ∧
         ws w' = ws (Faulty.first_run 5)) ∧
  (∃ w', build_stage_layer project (Faulty.first_run 4)
         = (Raise (Raised DockerException "500 Server Error"), w') ∧
         layer_dir w' = None ∧
         image_data_tar w' = Some Faulty.exported_partly ∧
         ws w' = ws (Faulty.first_run 4) ∧
         calls w' = [ CallImagesBuild "craft-parts-stage"
                        (stage_dockerfile "20.04" ["curl"]);
                      CallImageSave ]) ∧
  (∃ w', build_stage_layer project (Faulty.first_run 2)
         = (Raise (Raised KeyError "filename 'manifest.json' not found"), w') ∧
         layer_dir w' = None ∧
         image_data_tar w'
           = Some (Faulty.exported_no_manifest (stage_dockerfile "20.04" ["curl"])) ∧
         ws w' = ws (Faulty.first_run 2)).
Proof.
  split; [|split; [|split]].
  - apply (proj1 (build_stage_layer_failure_leaves_no_cache
                    project (Faulty.first_run 0) eq_refl)
             _ 0%nat).
    vm_compute. reflexivity.
  - apply (proj1 (proj2 (build_stage_layer_failure_leaves_no_cache
                           project (Faulty.first_run 5) eq_refl))
             (stage_dockerfile "20.04" ["curl"]) 5%nat _ 5%nat).
    + vm_compute. reflexivity.
    + vm_compute. reflexivity.
  - apply (proj1 (proj2 (proj2 (build_stage_layer_failure_leaves_no_cache
                                  project (Faulty.first_run 4) eq_refl)))
             (stage_dockerfile "20.04" ["curl"]) 4%nat _ _ 4%nat).
    + vm_compute. reflexivity.
    + vm_compute. reflexivity.
  - apply (proj2 (proj2 (proj2 (build_stage_layer_failure_leaves_no_cache
                                  project (Faulty.first_run 2) eq_refl)))
             (stage_dockerfile "20.04" ["curl"]) 2%nat _ 2%nat).
    + vm_compute. reflexivity.
    + vm_compute. reflexivity.
    + vm_compute. reflexivity.
Defined.

Lemma build_stage_layer_empty_layer_demo :
  ∃ w', build_stage_layer project (Faulty.first_run 1)
        = (Raise (Raised FileNotFoundError "No such file or directory"), w') ∧
        subclass FileNotFoundError OSError = true ∧
        layer_dir w' = None ∧
        ws w' = ws (Faulty.first_run 1).
Proof.
  apply (build_stage_layer_empty_layer project (Faulty.first_run 1)
           (stage_dockerfile "20.04" ["curl"]) 1%nat Faulty.exported_empty 1%nat).
  - reflexivity.
  - vm_compute. reflexivity.
  - vm_compute. reflexivity.
  - vm_compute. reflexivity.
Defined.

Lemma build_stage_layer_stage_exists_demo :
  ∃ w', build_stage_layer project Faulty.stage_exists
        = (Raise (Raised FileExistsError "File exists"), w') ∧
        subclass FileExistsError OSError = true ∧
        layer_dir w'
          = Some {[ "usr" := NDir;
                    "usr/installed" := NFile (Raw (stage_dockerfile "20.04" ["curl"])) ]} ∧
        ws w' = ws Faulty.stage_exists ∧
        ∃ w'', build_stage_layer project w' = (Ok (), w'') ∧
               calls w'' = calls w' ∧
               ws w'' = ws Faulty.stage_exists.
Proof.
  apply (build_stage_layer_stage_exists project Faulty.stage_exists
           (stage_dockerfile "20.04" ["curl"]) 3%nat
           (Demo.exported (stage_dockerfile "20.04" ["curl"])) 3%nat _ ∅).
  - reflexivity.
  - reflexivity.
  - vm_compute. reflexivity.
  - vm_compute. reflexivity.
  - vm_compute. reflexivity.
Defined.

Lemma build_stage_layer_partial_layer_demo :
  ∃ w', build_stage_layer project (Faulty.first_run 6)
        = (Raise (Raised NotADirectoryError "Not a directory"), w') ∧
        layer_dir w' = Some {[ "usr" := NFile (Raw "") ]} ∧
        ws w' = ws (Faulty.first_run 6) ∧
        ∃ w'', build_stage_layer project w' = (Ok (), w'') ∧
               calls w'' = calls w' ∧
               layer_dir w'' = Some {[ "usr" := NFile (Raw "") ]} ∧
               ws w'' = ws (Faulty.first_run 6).
Proof.
  apply (build_stage_layer_partial_layer project (Faulty.first_run 6)
           (stage_dockerfile "20.04" ["curl"]) 6%nat
           (Faulty.exported_conflict (stage_dockerfile "20.04" ["curl"])) 6%nat).
  - reflexivity.
  - vm_compute. reflexivity.
  - vm_compute. reflexivity.
  - vm_compute. reflexivity.
Defined.

(** ** What a run keeps *)

Section Steps.

Context `{Collaborators}.

Section Relation.

Variable R : world → world → Prop.
Hypothesis R_refl : ∀ w, R w w.
Hypothesis R_trans : ∀ w1 w2 w3, R w1 w2 → R w2 w3 → R w1 w3.

Lemma steps_bind {A B} (m : M A) (k : A → M B) :
  steps R m → (∀ x, steps R (k x)) → steps R (m ≫= k).
Proof.
  intros Hm Hk w. unfold mbind, M_bind, bind.
  pose proof (Hm w) as Hfirst.
  destruct (m w) as [[x|e] w1]; [|done].
  exact (R_trans _ _ _ Hfirst (Hk x w1)).
Qed.

Lemma steps_same {A} (m : M A) : (∀ w, (m w).2 = w) → steps R m.
Proof. intros Hsame w. by rewrite Hsame. Qed.

Lemma steps_for_each {A} (xs : list A) (body : A → M unit) :
  (∀ x, x ∈ xs → steps R (body x)) → steps R (for_each xs body).
Proof.
  induction xs as [|x rest IH]; intros Hbody; simpl.
  - by apply steps_same.
  - apply (steps_bind (body x) (λ _, for_each rest body)).
    + apply Hbody, list_elem_of_here.
    + intros _. apply IH. intros y Hy. by apply Hbody, list_elem_of_further.
Qed.

Lemma steps_finally {A} (body : M A) (leave : M unit) :
  steps R body → steps R leave → steps R (finally body leave).
Proof.
  intros Hbody Hleave w. unfold finally.
  pose proof (Hbody w) as Hfirst.
  destruct (body w) as [r w1].
  pose proof (Hleave w1) as Hsecond.
  destruct (leave w1) as [[[]|e] w2]; exact (R_trans _ _ _ Hfirst Hsecond).
Qed.

End Relation.

Lemma steps_weaken (R R' : world → world → Prop) {A} (m : M A) :
  (∀ w w', R w w' → R' w w') → steps R m → steps R' m.
Proof. intros Hweak Hm w. apply Hweak, Hm. Qed.

(** *** The cache and the calls on record *)

Lemma cache_kept_refl w : cache_kept w w.
Proof. done. Qed.

Lemma cache_kept_trans w1 w2 w3 :
  cache_kept w1 w2 → cache_kept w2 w3 → cache_kept w1 w3.
Proof.
  intros (Hl1 & Hi1 & Hc1) (Hl2 & Hi2 & Hc2).
  split_and!; [congruence|congruence|auto].
Qed.

Lemma cache_kept_on_workspace {A} c
    (op : workspace lm_state → outcome A * workspace lm_state) :
  steps cache_kept (on_workspace c op).
Proof.
  intros w. unfold on_workspace. cbn. destruct (op _). cbn.
  split_and!; [done|done|]. intros c' Hc'. apply elem_of_app. by left.
Qed.

Lemma cache_kept_on_engine {A} c (op : engine_state → outcome A * engine_state) :
  steps cache_kept (on_engine c op).
Proof.
  intros w. unfold on_engine. cbn. destruct (op _). cbn.
  split_and!; [done|done|]. intros c' Hc'. apply elem_of_app. by left.
Qed.

Lemma cache_kept_query {A} c (f : lm_state → outcome A) :
  steps cache_kept (query c f).
Proof.
  intros w. unfold query. cbn.
  split_and!; [done|done|]. intros c' Hc'. apply elem_of_app. by left.
Qed.

Lemma cache_kept_record c : steps cache_kept (record c).
Proof.
  intros w. unfold record, modify. cbn.
  split_and!; [done|done|]. intros c' Hc'. apply elem_of_app. by left.
Qed.

Lemma cache_kept_print s : steps cache_kept (print s).
Proof. done. Qed.

Lemma cache_kept_eprint s : steps cache_kept (eprint s).
Proof. done. Qed.

Lemma cache_kept_modify (f : world → world) :
  (∀ w, cache_kept w (f w)) → steps cache_kept (modify f).
Proof. intros Hf w. apply Hf. Qed.

Lemma cache_kept_print_plan actions : ∀ printed,
  steps cache_kept (print_plan actions printed).
Proof.
  induction actions as [|a rest IH]; intros printed; simpl.
  - by apply (steps_same _ cache_kept_refl).
  - case_decide; [|apply IH].
    apply (steps_bind _ cache_kept_trans);
      [by apply (steps_same _ cache_kept_refl)|intros m].
    apply (steps_bind _ cache_kept_trans);
      [apply cache_kept_print|intros _; apply IH].
Qed.

Ltac keep :=
  repeat first
    [ apply cache_kept_print | apply cache_kept_eprint
    | apply cache_kept_on_workspace | apply cache_kept_on_engine
    | apply cache_kept_query | apply cache_kept_record
    | apply cache_kept_print_plan
    | apply cache_kept_modify; done
    | apply (steps_same _ cache_kept_refl); done
    | match goal with
      | |- steps _ (_ ≫= _) =>
          apply (steps_bind _ cache_kept_trans); [|intros ?]
      end ].

Lemma cache_kept_do_step_plan_only project_info options :
  plan_only options = true → steps cache_kept (_do_step project_info options).
Proof.
  intros Hplan. unfold _do_step. rewrite Hplan.
  apply (steps_bind _ cache_kept_trans);
    [destruct (update options); keep|intros _].
  apply (steps_bind _ cache_kept_trans); [apply cache_kept_query|].
  intros actions. keep. destruct x; keep.
Qed.

Lemma cache_kept_main options w :
  cache_kept (process_parts options w).2 (main options w).2.
Proof.
  unfold main. destruct (process_parts options w) as [[[]|[c err|code]] w1]; [done| |done].
  cbn. by repeat case_match.
Qed.

(** X11. Plan-only does not hold back the check on the stage packages:
    when the resolved dependencies differ from the recorded packages, a
    plan-only run, whatever its command, has called [lf.clean(Step.PULL)]
    and ends without layer directory, provided the lifecycle manager's
    calls up to the reload return. *)
Theorem plan_only_still_invalidates
    options w part_data loaded pkgs deps recorded cleaned reloaded :
  plan_only options = true →
  load_parts_file (file options) = Ok part_data →
  LifecycleManager part_data project (ws w) = (Ok (), loaded) →
  get_stage_packages (lm loaded) = Ok pkgs →
  resolve_package_dependencies (lm loaded) pkgs = Ok deps →
  get_state_assets (lm loaded) = Ok recorded →
  ¬ (∀ x, x ∈ deps ↔ x ∈ recorded) →
  lf_clean (Some PULL) [] loaded = (Ok (), cleaned) →
  lf_reload_state cleaned = (Ok (), reloaded) →
  layer_dir (run options w).2 = None ∧
  CallClean (Some PULL) [] ∈ calls (run options w).2.
Proof.
  intros Hplan Hfile Hloaded Hpkgs Hdeps Hrecorded Hdiffer Hclean Hreload.
  destruct (check_stage_packages_spec (set_up options loaded w) pkgs deps recorded
              Hpkgs Hdeps Hrecorded) as (_ & Hcheck & _).
  destruct (Hcheck Hdiffer cleaned reloaded Hclean Hreload)
    as (w1 & Hrun & _ & Hlayer & Hcalls & _).
  assert (cache_kept w1 (process_parts options w).2) as Hrest.
  { rewrite (process_parts_set_up _ _ _ _ Hfile Hloaded).
    unfold mbind at 1, M_bind at 1, bind at 1. rewrite Hrun.
    case_decide.
    - unfold _do_clean. rewrite Hplan. done.
    - by apply cache_kept_do_step_plan_only. }
  destruct (cache_kept_trans _ _ _ Hrest (cache_kept_main options w))
    as (Hl & _ & Hc).
  unfold run. destruct (main options w) as [r w']. simpl in *.
  split; [congruence|].
  apply Hc. rewrite Hcalls. apply elem_of_app. right.
  do 3 apply list_elem_of_further. apply list_elem_of_here.
Qed.

(** *** Which actions are executed *)

Lemma executed_from_refl actions w : executed_from actions w w.
Proof. intros a. by left. Qed.

Lemma executed_from_trans actions w1 w2 w3 :
  executed_from actions w1 w2 → executed_from actions w2 w3 →
  executed_from actions w1 w3.
Proof.
  intros H12 H23 a Hin. destruct (H23 a Hin) as [Hin2|?]; [by apply H12|by right].
Qed.

Lemma executed_from_silent actions {A} (m : M A) :
  silent is_execute m → steps (executed_from actions) m.
Proof. intros Hsilent w a Hin. left. by apply (Hsilent w (CallExecute a)). Qed.

(** The callbacks call the engine, unpack and copy, and nothing else. *)
Lemma silent_build_stage_layer P project_info :
  (∀ tag dockerfile, ¬ P (CallImagesBuild tag dockerfile)) →
  ¬ P CallImageSave → ¬ P CallExtract → (∀ b, ¬ P (CallCopytree b)) →
  silent P (build_stage_layer project_info).
Proof.
  intros Hbuild Hsave Hextract Hcopy. unfold build_stage_layer.
  apply silent_bind; [apply silent_get|intros w0].
  destruct (layer_dir w0); [apply silent_print|].
  apply silent_bind; [apply silent_print|intros _].
  apply silent_bind; [by apply silent_on_engine|intros img].
  apply silent_bind; [by apply silent_on_engine|intros data].
  apply silent_bind; [apply silent_write_image_data|intros _].
  apply silent_bind; [apply silent_print|intros _].
  apply silent_bind.
  { apply (silent_one_call _ _ CallExtract Hextract).
    intros w. unfold extract_to_layer_dir. cbn. by destruct (extract_stage_layer _ _). }
  intros _. apply silent_bind.
  { apply (silent_one_call _ _ (CallCopytree false) (Hcopy false)).
    intros w. unfold copytree_to_stage. cbn. by destruct (copytree _ _ _). }
  intros _.
  apply (silent_one_call _ _ (CallCopytree true) (Hcopy true)).
  intros w. unfold copytree_to_prime. cbn. by destruct (copytree _ _ _).
Qed.

Lemma silent_create_final_image P project_info :
  (∀ tag, ¬ P (CallImagesBuildPath tag)) →
  silent P (create_final_image project_info).
Proof.
  intros Hbuild. unfold create_final_image.
  apply silent_bind; [apply silent_print|intros _].
  apply silent_bind; [by apply silent_same_calls|intros _].
  apply silent_bind; [apply silent_get|intros w0].
  by apply silent_on_engine.
Qed.

Lemma executed_from_execute_action actions a :
  a ∈ actions → steps (executed_from actions) (execute_action a).
Proof.
  intros Ha w. unfold execute_action. case_decide as Hskip;
    [|apply executed_from_refl].
  unfold mbind, M_bind, bind, of_outcome, print, modify, on_execute.
  destruct (_action_message a) as [m|e]; cbn; [|apply executed_from_refl].
  destruct (ctx_execute _ _) as [r [x layer]]. unfold executed_from. cbn.
  intros a'. rewrite elem_of_app, list_elem_of_singleton.
  intros [?|[= ->]]; [by left|by right].
Qed.

Lemma executed_from_execution_context project_info actions :
  steps (executed_from actions)
        (execution_context project_info (for_each actions execute_action)).
Proof.
  unfold execution_context.
  apply (steps_bind _ (executed_from_trans actions)).
  { apply executed_from_silent, silent_on_workspace. simpl. tauto. }
  intros _. apply (steps_bind _ (executed_from_trans actions)).
  { apply executed_from_silent, silent_build_stage_layer; simpl; tauto. }
  intros _. apply (steps_finally _ (executed_from_trans actions)).
  - apply (steps_for_each _ (executed_from_refl actions)
             (executed_from_trans actions)).
    intros a Ha. by apply executed_from_execute_action.
  - apply executed_from_silent, silent_create_final_image. simpl. tauto.
Qed.

(** X13. [_do_step] executes actions of the plan only, and none that is a
    skip: every call to [ctx.execute] it makes is for an action that the
    lifecycle manager planned and whose type is not SKIP. *)
Theorem _do_step_executes_planned_actions project_info options w w2 actions a :
  (if update options then on_workspace CallUpdate lf_update else mret ()) w
    = (Ok (), w2) →
  lf_plan (match truthy (command options) with
           | Some c => _parse_step c
           | None => PRIME
           end) (parts options) (lm (ws w2)) = Ok actions →
  CallExecute a ∈ calls (_do_step project_info options w).2 →
  CallExecute a ∈ calls w ∨ (a ∈ actions ∧ type a ≠ SKIP).
Proof.
  intros Hupdate Hactions.
  destruct (plan_only options) eqn:Hplan.
  { intros Hin. left.
    by apply (_do_step_plan_only_executes_nothing project_info options Hplan
                w (CallExecute a)). }
  assert (∀ c, is_execute c → c ∈ calls w2 → c ∈ calls w) as Hw2.
  { intros c Hc. destruct (update options).
    - pose proof (silent_on_workspace is_execute CallUpdate lf_update
                    (λ x, x) w c Hc) as Hsilent.
      by rewrite Hupdate in Hsilent.
    - by injection Hupdate as <-. }
  unfold _do_step. rewrite Hplan.
  unfold mbind at 1, M_bind at 1, bind at 1. rewrite Hupdate.
  unfold mbind at 1, M_bind at 1, bind at 1, query. rewrite Hactions.
  intros Hin.
  destruct (executed_from_execution_context project_info actions _ a Hin)
    as [Hbefore|?]; [left|by right].
  apply Hw2; [done|]. cbn in Hbefore.
  apply elem_of_app in Hbefore as [?|Hplanned]; [done|].
  by apply list_elem_of_singleton in Hplanned.
Qed.

(** *** What the clean command calls *)

Lemma main_calls options w :
  calls (main options w).2 = calls (process_parts options w).2.
Proof.
  unfold main. destruct (process_parts options w) as [[[]|[c err|code]] w1];
    [done| |done].
  cbn. by repeat case_match.
Qed.

(** X14. A run of the clean command registers the two callbacks, loads
    the parts file, constructs the lifecycle manager, asks for the stage
    packages, their dependencies and the recorded packages, and apart
    from that only cleans, reloads and removes the layer directory: it
    does not update or plan, it does not enter the execution context or
    execute an action, it does not reach the engine, and it unpacks and
    copies nothing. *)
Theorem clean_command_only_invalidates options w c :
  default "prime" (truthy (command options)) = "clean" →
  c ∈ calls (run options w).2 →
  c ∈ calls w ∨
  c ∈ [ CallRegisterPrologue; CallRegisterEpilogue;
        CallLoadPartsFile (file options); CallLifecycleManager;
        CallGetStagePackages; CallResolvePackageDependencies;
        CallGetStateAssets ] ∨
  is_invalidation c.
Proof.
  intros Hclean Hin.
  pose (allowed := λ c, c ∈ [ CallRegisterPrologue; CallRegisterEpilogue;
                              CallLoadPartsFile (file options); CallLifecycleManager;
                              CallGetStagePackages; CallResolvePackageDependencies;
                              CallGetStateAssets ] ∨ is_invalidation c).
  assert (silent (λ c, ¬ allowed c) (process_parts options)) as Hsilent.
  { assert (∀ c, allowed c → ¬ ¬ allowed c) as Hyes by tauto.
    assert (∀ c, is_invalidation c → ¬ ¬ allowed c) as Hinv
      by (intros c0 Hc0; apply Hyes; by right).
    assert (∀ n, ¬ ¬ allowed (nth n [ CallRegisterPrologue; CallRegisterEpilogue;
                                      CallLoadPartsFile (file options);
                                      CallLifecycleManager;
                                      CallGetStagePackages;
                                      CallResolvePackageDependencies;
                                      CallGetStateAssets ] CallRmtree)) as Hnth.
    { intros n. apply Hyes.
      do 7 (destruct n as [|n];
            [left; solve [repeat first [apply list_elem_of_here
                                       |apply list_elem_of_further]]|]).
      right. by destruct n. }
    unfold process_parts.
    apply silent_bind; [apply silent_record, (Hnth 0%nat)|intros _].
    apply silent_bind; [apply silent_record, (Hnth 1%nat)|intros _].
    apply silent_bind; [apply silent_record, (Hnth 2%nat)|intros _].
    apply silent_bind; [apply silent_of_outcome|intros part_data].
    apply silent_bind; [apply silent_on_workspace, (Hnth 3%nat)|intros _].
    apply silent_bind.
    { unfold check_stage_packages.
      apply silent_bind; [apply silent_query, (Hnth 4%nat)|intros ?].
      apply silent_bind; [apply silent_query, (Hnth 5%nat)|intros ?].
      apply silent_bind; [apply silent_query, (Hnth 6%nat)|intros ?].
      destruct (sets_differ _ _); [|apply silent_ret].
      apply silent_bind; [by apply silent_on_workspace, Hinv|intros _].
      apply silent_bind; [by apply silent_on_workspace, Hinv|intros _].
      by apply silent_remove_layer_dir, Hinv. }
    intros _. rewrite decide_True by done.
    apply silent_bind; [|intros _; apply silent_raise].
    unfold _do_clean. destruct (plan_only options); [apply silent_raise|].
    apply silent_bind; [destruct (parts options);
                        [apply silent_print|apply silent_ret]|intros _].
    apply silent_bind; [by apply silent_on_workspace, Hinv|intros _].
    by apply silent_remove_layer_dir, Hinv. }
  assert (allowed c ∨ ¬ allowed c) as [[?|?]|Hother].
  { unfold allowed. destruct c; simpl;
      first [ by (left; right)
            | left; left;
              solve [repeat first [apply list_elem_of_here|apply list_elem_of_further]]
            | right; intros [Hc|[]];
              repeat (apply elem_of_cons in Hc as [Hc|Hc]; [discriminate Hc|]);
              by apply elem_of_nil in Hc
            | idtac ].
    destruct (decide (name = file options)) as [->|Hne].
    - left; left.
      solve [repeat first [apply list_elem_of_here|apply list_elem_of_further]].
    - right. intros [Hc|[]].
      repeat (apply elem_of_cons in Hc as [Hc|Hc];
              [first [discriminate Hc|by injection Hc]|]).
      by apply elem_of_nil in Hc. }
  - by right; left.
  - by right; right.
  - left. apply (Hsilent w c Hother). rewrite <- main_calls.
    unfold run in Hin. by destruct (main options w).
Qed.

(** X15. A run of a step command clears state and removes the layer
    directory only after it has found the resolved dependencies to differ
    from the recorded packages: if it makes a call that cleans, reloads
    or removes the layer directory, then the parts file was loaded, the
    lifecycle manager set up, the three queries answered, and the two
    lists differ as sets.  No failure on the way invalidates anything. *)
Theorem invalidation_needs_difference options w c :
  default "prime" (truthy (command options)) ≠ "clean" →
  is_invalidation c →
  c ∈ calls (process_parts options w).2 →
  c ∉ calls w →
  ∃ part_data loaded pkgs deps recorded,
    load_parts_file (file options) = Ok part_data ∧
    LifecycleManager part_data project (ws w) = (Ok (), loaded) ∧
    get_stage_packages (lm loaded) = Ok pkgs ∧
    resolve_package_dependencies (lm loaded) pkgs = Ok deps ∧
    get_state_assets (lm loaded) = Ok recorded ∧
    ¬ (∀ x, x ∈ deps ↔ x ∈ recorded).
Proof.
  intros Hstep Hc Hin Hnew.
  assert (∀ new, Forall (λ c, ¬ is_invalidation c) new →
            c ∉ (calls w ++ new)%list) as Hfresh.
  { intros new Hall. rewrite elem_of_app. intros [?|Hin']; [done|].
    by apply (proj1 (Forall_forall _ _) Hall c). }
  destruct (load_parts_file (file options)) as [part_data|e] eqn:Hfile.
  2:{ exfalso. revert Hin. unfold process_parts.
      unfold mbind, M_bind, bind, record, modify, of_outcome. rewrite Hfile. cbn.
      rewrite <- !app_assoc.
      apply Hfresh. repeat constructor; simpl; tauto. }
  destruct (LifecycleManager part_data project (ws w)) as [[[]|e] loaded] eqn:Hloaded.
  2:{ exfalso. revert Hin. unfold process_parts.
      unfold mbind, M_bind, bind, record, modify, of_outcome, on_workspace.
      rewrite Hfile. cbn. rewrite Hloaded. cbn. rewrite <- !app_assoc.
      apply Hfresh. repeat constructor; simpl; tauto. }
  rewrite (process_parts_set_up _ _ _ _ Hfile Hloaded) in Hin.
  destruct (get_stage_packages (lm loaded)) as [pkgs|e] eqn:Hpkgs.
  2:{ exfalso. revert Hin.
      unfold check_stage_packages, mbind, M_bind, bind, query. cbn.
      rewrite Hpkgs. cbn. rewrite <- app_assoc.
      apply Hfresh. repeat constructor; simpl; tauto. }
  destruct (resolve_package_dependencies (lm loaded) pkgs) as [deps|e] eqn:Hdeps.
  2:{ exfalso. revert Hin.
      unfold check_stage_packages, mbind, M_bind, bind, query. cbn.
      rewrite Hpkgs. cbn. rewrite Hdeps. cbn. rewrite <- !app_assoc.
      apply Hfresh. repeat constructor; simpl; tauto. }
  destruct (get_state_assets (lm loaded)) as [recorded|e] eqn:Hrecorded.
  2:{ exfalso. revert Hin.
      unfold check_stage_packages, mbind, M_bind, bind, query. cbn.
      rewrite Hpkgs. cbn. rewrite Hdeps. cbn. rewrite Hrecorded. cbn.
      rewrite <- !app_assoc.
      apply Hfresh. repeat constructor; simpl; tauto. }
  exists part_data, loaded, pkgs, deps, recorded.
  split_and!; try done.
  intros Hsame. revert Hin.
  unfold mbind at 1, M_bind at 1, bind at 1.
  rewrite (proj1 (check_stage_packages_spec (set_up options loaded w) pkgs deps recorded
                    Hpkgs Hdeps Hrecorded) Hsame).
  rewrite decide_False by done.
  intros Hin. apply _do_step_invalidates_nothing in Hin; [|done].
  revert Hin. cbn. rewrite <- app_assoc.
  apply Hfresh. repeat constructor; simpl; tauto.
Qed.

End Steps.

Lemma plan_only_still_invalidates_demo :
  layer_dir (run (Demo.options_of (Some "stage") true)
               (set_layer_dir (Some Demo.cached_layer) Demo.fresh)).2 = None ∧
  CallClean (Some PULL) []
    ∈ calls (run (Demo.options_of (Some "stage") true)
               (set_layer_dir (Some Demo.cached_layer) Demo.fresh)).2.
Proof.
  eapply (plan_only_still_invalidates
            (Demo.options_of (Some "stage") true)
            (set_layer_dir (Some Demo.cached_layer) Demo.fresh)
            () (ws Demo.fresh) ["curl"] ["curl"] []);
    try reflexivity.
  intros Hsame. by apply (elem_of_nil (A := string) "curl"), Hsame, list_elem_of_here.
Defined.

Lemma _do_step_executes_planned_actions_demo :
  (_do_step project (Demo.options_of None false) Demo.cached).1 = Ok () ∧
  (∀ a, CallExecute a
          ∈ calls (_do_step project (Demo.options_of None false) Demo.cached).2 →
        a ∈ Demo.prime_plan ∧ type a ≠ SKIP).
Proof.
  split; [vm_compute; reflexivity|].
  intros a Hin.
  destruct (_do_step_executes_planned_actions
              project (Demo.options_of None false) Demo.cached Demo.cached
              Demo.prime_plan a eq_refl eq_refl Hin) as [Hbefore|Hplanned].
  - by apply elem_of_nil in Hbefore.
  - exact Hplanned.
Defined.

Lemma clean_command_only_invalidates_demo :
  calls (run (Faulty.clean_options []) Faulty.later_run).2
    = [ CallRegisterPrologue; CallRegisterEpilogue;
        CallLoadPartsFile "parts.yaml"; CallLifecycleManager;
        CallGetStagePackages; CallResolvePackageDependencies;
        CallGetStateAssets; CallClean None []; CallRmtree ] ∧
  (∀ c, c ∈ calls (run (Faulty.clean_options []) Faulty.later_run).2 →
        c ∈ [ CallRegisterPrologue; CallRegisterEpilogue;
              CallLoadPartsFile "parts.yaml"; CallLifecycleManager;
              CallGetStagePackages; CallResolvePackageDependencies;
              CallGetStateAssets ] ∨
        is_invalidation c).
Proof.
  split; [vm_compute; reflexivity|].
  intros c Hin.
  destruct (clean_command_only_invalidates
              (Faulty.clean_options []) Faulty.later_run c eq_refl Hin)
    as [Hbefore|Hallowed].
  - by apply elem_of_nil in Hbefore.
  - exact Hallowed.
Defined.

Lemma invalidation_needs_difference_demo :
  ∃ part_data loaded pkgs deps recorded,
    load_parts_file (file (Demo.options_of None false)) = Ok part_data ∧
    LifecycleManager part_data project (ws Demo.fresh) = (Ok (), loaded) ∧
    get_stage_packages (lm loaded) = Ok pkgs ∧
    resolve_package_dependencies (lm loaded) pkgs = Ok deps ∧
    get_state_assets (lm loaded) = Ok recorded ∧
    ¬ (∀ x, x ∈ deps ↔ x ∈ recorded).
Proof.
  apply (invalidation_needs_difference
           (Demo.options_of None false) Demo.fresh (CallClean (Some PULL) [])).
  - discriminate.
  - exact I.
  - assert (∃ before more,
              calls (process_parts (Demo.options_of None false) Demo.fresh).2
              = (before ++ CallClean (Some PULL) [] :: more)%list)
      as (before & more & ->)
      by (exists [ CallRegisterPrologue; CallRegisterEpilogue;
                   CallLoadPartsFile "parts.yaml"; CallLifecycleManager;
                   CallGetStagePackages; CallResolvePackageDependencies;
                   CallGetStateAssets ]; eexists; vm_compute; reflexivity).
    apply elem_of_app. right. apply list_elem_of_here.
  - apply not_elem_of_nil.
Defined.
